(** * MegaMekLab conversion: enum mappings

    A shallow embedding of [scripts/megameklab-conversion/enum_mappings.py]
    and the properties of its mapping functions.

    Python's [str] is modelled by [String.string].  The methods of [str]
    the module calls ([strip], [upper], [lower], [title], [isdigit],
    [replace], [in]) are written out below with CPython's behaviour on the
    ASCII range (codes 0..127); the codes 128..255 of [ascii] are carried
    along as uncased symbols that are neither white space nor digits.
    The statements of the first part that are quantified over all inputs
    are proved by case analysis on the outcome of the tests the source
    makes, not on which characters are cased, blank or digits; the
    further properties at the end do use the ASCII tables.

    A [dict] literal is an association list in source order.  Subscripting
    [d[k]] raises [KeyError] on a missing key, [d.get(k, default)] does
    not: the mapping functions therefore return a [result]. *)

From Stdlib Require Import String Ascii List ZArith NArith Bool Arith Lia.
From Equations Require Import Equations.
Import ListNotations.

Local Open Scope string_scope.
Local Open Scope list_scope.

(** ** Python's [str] methods *)

Module PyStr.

Definition code (c : ascii) : N := N_of_ascii c.

Definition between (lo hi : N) (c : ascii) : bool :=
  (N.leb lo (code c) && N.leb (code c) hi)%bool.

(** [c.isspace()]: tab, line feed, vertical tab, form feed, carriage
    return, the four separators 0x1c..0x1f and the space.  Outside the
    ASCII range [str.isspace] is also true of U+0085, U+00A0 and other
    Unicode blanks, which this test does not know. *)
Definition isspace (c : ascii) : bool :=
  (between 9 13 c || between 28 31 c || N.eqb (code c) 32)%bool.

(** [c.isdigit()] on the ASCII range.  Outside it [str.isdigit] is also
    true of characters such as U+00B2 or U+0663; a statement that depends
    on which characters are digits is made for ASCII input only. *)
Definition isdigit (c : ascii) : bool := between 48 57 c.

Definition isupper (c : ascii) : bool := between 65 90 c.
Definition islower (c : ascii) : bool := between 97 122 c.
Definition iscased (c : ascii) : bool := (isupper c || islower c)%bool.

Definition upper_char (c : ascii) : ascii :=
  if islower c then ascii_of_N (code c - 32) else c.

Definition lower_char (c : ascii) : ascii :=
  if isupper c then ascii_of_N (code c + 32) else c.

Fixpoint map_chars (f : ascii -> ascii) (s : string) : string :=
  match s with
  | EmptyString => EmptyString
  | String c r => String (f c) (map_chars f r)
  end.

(** [s.upper()] and [s.lower()] on the ASCII range; outside it the
    methods of [str] map other letters too and may change the length. *)
Definition upper (s : string) : string := map_chars upper_char s.
Definition lower (s : string) : string := map_chars lower_char s.

(** [s.title()]: a cased character that follows an uncased one (or
    starts the string) is upper-cased, one that follows a cased
    character is lower-cased. *)
Fixpoint title_from (previous_is_cased : bool) (s : string) : string :=
  match s with
  | EmptyString => EmptyString
  | String c r =>
      if iscased c
      then String (if previous_is_cased then lower_char c else upper_char c)
                  (title_from true r)
      else String c (title_from false r)
  end.

Definition title (s : string) : string := title_from false s.

Definition is_empty (s : string) : bool :=
  match s with EmptyString => true | String _ _ => false end.

Fixpoint lstrip_by (p : ascii -> bool) (s : string) : string :=
  match s with
  | EmptyString => EmptyString
  | String c r => if p c then lstrip_by p r else s
  end.

Fixpoint rstrip_by (p : ascii -> bool) (s : string) : string :=
  match s with
  | EmptyString => EmptyString
  | String c r =>
      let r' := rstrip_by p r in
      if (is_empty r' && p c)%bool then EmptyString else String c r'
  end.

Definition strip_by (p : ascii -> bool) (s : string) : string :=
  rstrip_by p (lstrip_by p s).

(** [s.strip()] *)
Definition strip (s : string) : string := strip_by isspace s.

Fixpoint char_in (c : ascii) (chars : string) : bool :=
  match chars with
  | EmptyString => false
  | String d r => (Ascii.eqb c d || char_in c r)%bool
  end.

(** [s.strip(chars)] *)
Definition strip_chars (chars s : string) : string :=
  strip_by (fun c => char_in c chars) s.

(** [s.startswith(pre)] *)
Fixpoint startswith (pre s : string) : bool :=
  match pre with
  | EmptyString => true
  | String a pre' =>
      match s with
      | EmptyString => false
      | String b s' => (Ascii.eqb a b && startswith pre' s')%bool
      end
  end.

(** [sub in s] *)
Fixpoint contains (sub s : string) : bool :=
  (startswith sub s ||
   match s with
   | EmptyString => false
   | String _ r => contains sub r
   end)%bool.

(** [s.replace(old, new)]: occurrences of [old] are replaced from left
    to right without overlap; [skip] counts the characters of the
    occurrence just replaced that are still to be passed over. *)
Fixpoint replace_from (old new : string) (skip : nat) (s : string) : string :=
  match s with
  | EmptyString => if is_empty old then new else EmptyString
  | String c r =>
      match skip with
      | S k => replace_from old new k r
      | O =>
          if startswith old s
          then new ++ (if is_empty old
                       then String c (replace_from old new 0 r)
                       else replace_from old new (String.length old - 1) r)
          else String c (replace_from old new 0 r)
      end
  end.

Definition replace (old new s : string) : string := replace_from old new 0 s.

End PyStr.

(** ** Python's [dict] read operations *)

Inductive exn : Type :=
| KeyError (key : string).

Inductive result (A : Type) : Type :=
| Ok (value : A)
| Raise (e : exn).

Arguments Ok {A} value.
Arguments Raise {A} e.

Module PyDict.

Definition dict : Type := list (string * string).

Fixpoint lookup (d : dict) (k : string) : option string :=
  match d with
  | [] => None
  | (k', v) :: rest => if String.eqb k k' then Some v else lookup rest k
  end.

(** [k in d] *)
Definition contains (d : dict) (k : string) : bool :=
  match lookup d k with Some _ => true | None => false end.

(** [d[k]] *)
Definition getitem (d : dict) (k : string) : result string :=
  match lookup d k with Some v => Ok v | None => Raise (KeyError k) end.

(** [d.get(k, default)] *)
Definition get (d : dict) (k default : string) : string :=
  match lookup d k with Some v => v | None => default end.

Definition keys (d : dict) : list string := map fst d.
Definition values (d : dict) : list string := map snd d.

End PyDict.

Import PyStr.

(** ** The alias tables *)

Definition TECH_BASE_MAP : PyDict.dict :=
  [
    (* Standard variations *)
    ("Inner Sphere", "INNER_SPHERE")
  ; ("IS", "INNER_SPHERE")
  ; ("IS Level 1", "INNER_SPHERE")
  ; ("IS Level 2", "INNER_SPHERE")
  ; ("IS Level 3", "INNER_SPHERE")
  ; ("IS Level 4", "INNER_SPHERE")
  ; ("Clan", "CLAN")
  ; ("CL", "CLAN")
  ; ("Clan Level 2", "CLAN")
  ; ("Clan Level 3", "CLAN")
  ; ("Mixed", "MIXED")
  ; ("Mixed (IS Chassis)", "MIXED")
  ; ("Mixed (Clan Chassis)", "MIXED")
  ; ("Both", "BOTH")
    (* From type tag in BLK files *)
  ; ("0", "INNER_SPHERE")
  ; ("1", "CLAN")
  ; ("2", "MIXED")
  ].

Definition RULES_LEVEL_MAP : PyDict.dict :=
  [
    (* Numeric rules levels *)
    ("0", "INTRODUCTORY")
  ; ("1", "STANDARD")
  ; ("2", "ADVANCED")
  ; ("3", "EXPERIMENTAL")
  ; ("4", "UNOFFICIAL")
    (* Text rules levels *)
  ; ("Introductory", "INTRODUCTORY")
  ; ("Standard", "STANDARD")
  ; ("Advanced", "ADVANCED")
  ; ("Experimental", "EXPERIMENTAL")
  ; ("Unofficial", "UNOFFICIAL")
    (* IS Level variations (from type tag) *)
  ; ("IS Level 1", "INTRODUCTORY")
  ; ("IS Level 2", "STANDARD")
  ; ("IS Level 3", "ADVANCED")
  ; ("IS Level 4", "EXPERIMENTAL")
    (* Clan Level variations *)
  ; ("Clan Level 2", "STANDARD")
  ; ("Clan Level 3", "ADVANCED")
  ].

Definition ENGINE_TYPE_MAP : PyDict.dict :=
  [
    (* Standard engines *)
    ("Fusion Engine", "FUSION")
  ; ("Fusion Engine(IS)", "FUSION")
  ; ("Fusion Engine (IS)", "FUSION")
  ; ("Fusion", "FUSION")
  ; ("Standard Fusion", "FUSION")
    (* XL Engines *)
  ; ("XL Engine", "XL")
  ; ("XL Engine(IS)", "XL")
  ; ("XL Engine (IS)", "XL")
  ; ("XL Fusion Engine", "XL")
  ; ("Extra-Light Engine", "XL")
    (* Clan XL *)
  ; ("XL Engine(Clan)", "CLAN_XL")
  ; ("XL Engine (Clan)", "CLAN_XL")
  ; ("Clan XL Engine", "CLAN_XL")
    (* Light Engine *)
  ; ("Light Engine", "LIGHT")
  ; ("Light Engine(IS)", "LIGHT")
  ; ("Light Fusion Engine", "LIGHT")
    (* Compact Engine *)
  ; ("Compact Engine", "COMPACT")
  ; ("Compact Fusion Engine", "COMPACT")
    (* XXL Engine *)
  ; ("XXL Engine", "XXL")
  ; ("XXL Engine(IS)", "XXL")
  ; ("XXL Engine(Clan)", "CLAN_XXL")
    (* ICE Engine *)
  ; ("ICE Engine", "ICE")
  ; ("ICE", "ICE")
  ; ("Internal Combustion Engine", "ICE")
    (* Fuel Cell *)
  ; ("Fuel Cell Engine", "FUEL_CELL")
  ; ("Fuel Cell", "FUEL_CELL")
  ; ("Fuel-Cell Engine", "FUEL_CELL")
    (* Fission *)
  ; ("Fission Engine", "FISSION")
  ; ("Fission", "FISSION")
    (* Numeric codes (from BLK engine_type tag) *)
  ; ("0", "FUSION")
  ; ("1", "XL")
  ; ("2", "LIGHT")
  ; ("3", "COMPACT")
  ; ("4", "CLAN_XL")
  ; ("5", "XXL")
  ].

Definition GYRO_TYPE_MAP : PyDict.dict :=
  [
    ("Standard Gyro", "STANDARD")
  ; ("Standard", "STANDARD")
  ; ("XL Gyro", "XL")
  ; ("Extra-Light Gyro", "XL")
  ; ("Compact Gyro", "COMPACT")
  ; ("Heavy Duty Gyro", "HEAVY_DUTY")
  ; ("Heavy-Duty Gyro", "HEAVY_DUTY")
  ; ("Superheavy Gyro", "SUPERHEAVY")
  ; ("Super Heavy Gyro", "SUPERHEAVY")
  ; ("None", "NONE")
    (* Numeric codes *)
  ; ("0", "STANDARD")
  ; ("1", "XL")
  ; ("2", "COMPACT")
  ; ("3", "HEAVY_DUTY")
  ; ("4", "SUPERHEAVY")
  ].

Definition COCKPIT_TYPE_MAP : PyDict.dict :=
  [
    ("Standard Cockpit", "STANDARD")
  ; ("Standard", "STANDARD")
  ; ("Small Cockpit", "SMALL")
  ; ("Small", "SMALL")
  ; ("Command Console", "COMMAND_CONSOLE")
  ; ("Torso-Mounted Cockpit", "TORSO_MOUNTED")
  ; ("Torso Cockpit", "TORSO_MOUNTED")
  ; ("Primitive Cockpit", "PRIMITIVE")
  ; ("Primitive", "PRIMITIVE")
  ; ("Industrial Cockpit", "INDUSTRIAL")
  ; ("Industrial", "INDUSTRIAL")
  ; ("Primitive Industrial Cockpit", "PRIMITIVE_INDUSTRIAL")
  ; ("Primitive Industrial", "PRIMITIVE_INDUSTRIAL")
  ; ("Superheavy Industrial Cockpit", "SUPERHEAVY_INDUSTRIAL")
  ; ("Tripod Industrial Cockpit", "TRIPOD_INDUSTRIAL")
  ; ("Superheavy Tripod Industrial Cockpit", "SUPERHEAVY_TRIPOD_INDUSTRIAL")
  ; ("Superheavy Cockpit", "SUPERHEAVY")
  ; ("Superheavy Tripod Cockpit", "SUPERHEAVY_TRIPOD")
  ; ("Interface Cockpit", "INTERFACE")
  ; ("QuadVee Cockpit", "QUADVEE")
  ].

Definition STRUCTURE_TYPE_MAP : PyDict.dict :=
  [
    ("Standard", "STANDARD")
  ; ("IS Standard", "STANDARD")
  ; ("Standard Structure", "STANDARD")
  ; ("Endo Steel", "ENDO_STEEL")
  ; ("IS Endo Steel", "ENDO_STEEL")
  ; ("Endo-Steel", "ENDO_STEEL")
  ; ("Clan Endo Steel", "ENDO_STEEL_CLAN")
  ; ("Clan Endo-Steel", "ENDO_STEEL_CLAN")
  ; ("Endo-Composite", "ENDO_COMPOSITE")
  ; ("Endo Composite", "ENDO_COMPOSITE")
  ; ("Reinforced", "REINFORCED")
  ; ("Reinforced Structure", "REINFORCED")
  ; ("Composite", "COMPOSITE")
  ; ("Composite Structure", "COMPOSITE")
  ; ("Industrial", "INDUSTRIAL")
  ; ("Industrial Structure", "INDUSTRIAL")
  ].

Definition ARMOR_TYPE_MAP : PyDict.dict :=
  [
    ("Standard", "STANDARD")
  ; ("Standard Armor", "STANDARD")
  ; ("Standard(Inner Sphere)", "STANDARD")
  ; ("Ferro-Fibrous", "FERRO_FIBROUS")
  ; ("Ferro-Fibrous Armor", "FERRO_FIBROUS")
  ; ("Ferro-Fibrous(Inner Sphere)", "FERRO_FIBROUS")
  ; ("IS Ferro-Fibrous", "FERRO_FIBROUS")
  ; ("Clan Ferro-Fibrous", "FERRO_FIBROUS_CLAN")
  ; ("Ferro-Fibrous(Clan)", "FERRO_FIBROUS_CLAN")
  ; ("Light Ferro-Fibrous", "LIGHT_FERRO_FIBROUS")
  ; ("Light Ferro-Fibrous Armor", "LIGHT_FERRO_FIBROUS")
  ; ("Heavy Ferro-Fibrous", "HEAVY_FERRO_FIBROUS")
  ; ("Heavy Ferro-Fibrous Armor", "HEAVY_FERRO_FIBROUS")
  ; ("Stealth Armor", "STEALTH")
  ; ("Stealth", "STEALTH")
  ; ("Reactive Armor", "REACTIVE")
  ; ("Reactive", "REACTIVE")
  ; ("Reflective Armor", "REFLECTIVE")
  ; ("Reflective", "REFLECTIVE")
  ; ("Laser-Reflective", "REFLECTIVE")
  ; ("Hardened Armor", "HARDENED")
  ; ("Hardened", "HARDENED")
  ; ("Primitive Armor", "PRIMITIVE")
  ; ("Primitive", "PRIMITIVE")
  ; ("Industrial Armor", "INDUSTRIAL")
  ; ("Industrial", "INDUSTRIAL")
  ; ("Commercial", "COMMERCIAL")
  ; ("Commercial Armor", "COMMERCIAL")
  ; ("Heavy Industrial", "HEAVY_INDUSTRIAL")
  ; ("Heavy Industrial Armor", "HEAVY_INDUSTRIAL")
  ; ("Impact-Resistant", "IMPACT_RESISTANT")
  ; ("Impact-Resistant Armor", "IMPACT_RESISTANT")
  ].

Definition HEAT_SINK_TYPE_MAP : PyDict.dict :=
  [
    ("Single", "SINGLE")
  ; ("Single Heat Sink", "SINGLE")
  ; ("Single Heat Sinks", "SINGLE")
  ; ("Double", "DOUBLE")
  ; ("Double Heat Sink", "DOUBLE")
  ; ("Double Heat Sinks", "DOUBLE")
  ; ("Double (IS)", "DOUBLE")
  ; ("Double (Clan)", "DOUBLE_CLAN")
  ; ("Clan Double Heat Sink", "DOUBLE_CLAN")
  ; ("Clan Double", "DOUBLE_CLAN")
  ; ("Compact", "COMPACT")
  ; ("Compact Heat Sink", "COMPACT")
  ; ("Laser", "LASER")
  ; ("Laser Heat Sink", "LASER")
  ].

Definition MECH_LOCATION_MAP : PyDict.dict :=
  [
    (* Standard locations *)
    ("Head", "HEAD")
  ; ("HD", "HEAD")
  ; ("Center Torso", "CENTER_TORSO")
  ; ("CT", "CENTER_TORSO")
  ; ("Left Torso", "LEFT_TORSO")
  ; ("LT", "LEFT_TORSO")
  ; ("Right Torso", "RIGHT_TORSO")
  ; ("RT", "RIGHT_TORSO")
  ; ("Left Arm", "LEFT_ARM")
  ; ("LA", "LEFT_ARM")
  ; ("Right Arm", "RIGHT_ARM")
  ; ("RA", "RIGHT_ARM")
  ; ("Left Leg", "LEFT_LEG")
  ; ("LL", "LEFT_LEG")
  ; ("Right Leg", "RIGHT_LEG")
  ; ("RL", "RIGHT_LEG")
    (* Rear locations *)
  ; ("Center Torso (Rear)", "CENTER_TORSO_REAR")
  ; ("CTR", "CENTER_TORSO_REAR")
  ; ("RTC", "CENTER_TORSO_REAR")
  ; ("Left Torso (Rear)", "LEFT_TORSO_REAR")
  ; ("LTR", "LEFT_TORSO_REAR")
  ; ("RTL", "LEFT_TORSO_REAR")
  ; ("Right Torso (Rear)", "RIGHT_TORSO_REAR")
  ; ("RTR", "RIGHT_TORSO_REAR")
    (* Quad mech locations *)
  ; ("Front Left Leg", "FRONT_LEFT_LEG")
  ; ("FLL", "FRONT_LEFT_LEG")
  ; ("Front Right Leg", "FRONT_RIGHT_LEG")
  ; ("FRL", "FRONT_RIGHT_LEG")
  ; ("Rear Left Leg", "REAR_LEFT_LEG")
  ; ("RLL", "REAR_LEFT_LEG")
  ; ("Rear Right Leg", "REAR_RIGHT_LEG")
  ; ("RRL", "REAR_RIGHT_LEG")
  ].

Definition ARMOR_LOCATION_KEY_MAP : PyDict.dict :=
  [
    ("la armor", "LEFT_ARM")
  ; ("ra armor", "RIGHT_ARM")
  ; ("lt armor", "LEFT_TORSO")
  ; ("rt armor", "RIGHT_TORSO")
  ; ("ct armor", "CENTER_TORSO")
  ; ("hd armor", "HEAD")
  ; ("ll armor", "LEFT_LEG")
  ; ("rl armor", "RIGHT_LEG")
  ; ("rtl armor", "LEFT_TORSO_REAR")
  ; ("rtr armor", "RIGHT_TORSO_REAR")
  ; ("rtc armor", "CENTER_TORSO_REAR")
    (* Also support without 'armor' suffix *)
  ; ("la", "LEFT_ARM")
  ; ("ra", "RIGHT_ARM")
  ; ("lt", "LEFT_TORSO")
  ; ("rt", "RIGHT_TORSO")
  ; ("ct", "CENTER_TORSO")
  ; ("hd", "HEAD")
  ; ("ll", "LEFT_LEG")
  ; ("rl", "RIGHT_LEG")
  ; ("rtl", "LEFT_TORSO_REAR")
  ; ("rtr", "RIGHT_TORSO_REAR")
  ; ("rtc", "CENTER_TORSO_REAR")
  ].

Definition MECH_CONFIG_MAP : PyDict.dict :=
  [
    ("Biped", "Biped")
  ; ("Quad", "Quad")
  ; ("Tripod", "Tripod")
  ; ("LAM", "LAM")
  ; ("QuadVee", "QuadVee")
  ; ("Biped Omnimech", "Biped")
  ; ("Quad Omnimech", "Quad")
  ].

Definition UNIT_TYPE_MAP : PyDict.dict :=
  [
    ("BattleMech", "BattleMech")
  ; ("Mech", "BattleMech")
  ; ("Biped", "BattleMech")
  ; ("Quad", "BattleMech")
  ; ("OmniMech", "OmniMech")
  ; ("IndustrialMech", "IndustrialMech")
  ; ("ProtoMech", "ProtoMech")
  ; ("Tank", "Vehicle")
  ; ("Vehicle", "Vehicle")
  ; ("VTOL", "VTOL")
  ; ("Aerospace", "Aerospace")
  ; ("AeroSpaceFighter", "Aerospace")
  ; ("Conventional Fighter", "Conventional Fighter")
  ; ("ConvFighter", "Conventional Fighter")
  ; ("Small Craft", "Small Craft")
  ; ("SmallCraft", "Small Craft")
  ; ("DropShip", "DropShip")
  ; ("Dropship", "DropShip")
  ; ("JumpShip", "JumpShip")
  ; ("Jumpship", "JumpShip")
  ; ("WarShip", "WarShip")
  ; ("Warship", "WarShip")
  ; ("Space Station", "Space Station")
  ; ("SpaceStation", "Space Station")
  ; ("Infantry", "Infantry")
  ; ("BattleArmor", "Battle Armor")
  ; ("Battle Armor", "Battle Armor")
  ; ("Support Vehicle", "Support Vehicle")
  ; ("SupportVehicle", "Support Vehicle")
  ].

(** ** The mapping functions *)

Definition map_tech_base (value : string) : result string :=
  let clean := strip value in
  Ok (PyDict.get TECH_BASE_MAP clean
        (PyDict.get TECH_BASE_MAP (title clean) "INNER_SPHERE")).

(** The [for char in clean] loop of [map_rules_level]: it returns at the
    first digit, [None] stands for the loop running to its end. *)
Fixpoint first_digit_level (clean : string) : option string :=
  match clean with
  | EmptyString => None
  | String char rest =>
      if isdigit char
      then Some (PyDict.get RULES_LEVEL_MAP (String char EmptyString) "STANDARD")
      else first_digit_level rest
  end.

Definition map_rules_level (value : string) : result string :=
  let clean := strip value in
  if PyDict.contains RULES_LEVEL_MAP clean
  then PyDict.getitem RULES_LEVEL_MAP clean
  else match first_digit_level clean with
       | Some level => Ok level
       | None => Ok "STANDARD"
       end.

Definition map_engine_type (value : string) : result string :=
  let clean := strip value in
  if PyDict.contains ENGINE_TYPE_MAP clean
  then PyDict.getitem ENGINE_TYPE_MAP clean
  else
    let upper := upper clean in
    if contains "XXL" upper then Ok "XXL"
    else if contains "XL" upper && contains "CLAN" upper then Ok "CLAN_XL"
    else if contains "XL" upper then Ok "XL"
    else if contains "LIGHT" upper then Ok "LIGHT"
    else if contains "COMPACT" upper then Ok "COMPACT"
    else if contains "ICE" upper || contains "COMBUSTION" upper then Ok "ICE"
    else if contains "FUEL" upper || contains "CELL" upper then Ok "FUEL_CELL"
    else if contains "FISSION" upper then Ok "FISSION"
    else Ok "FUSION".

Definition map_gyro_type (value : string) : result string :=
  let clean := strip value in
  if PyDict.contains GYRO_TYPE_MAP clean
  then PyDict.getitem GYRO_TYPE_MAP clean
  else
    let upper := upper clean in
    if contains "SUPERHEAVY" upper || contains "SUPER HEAVY" upper
    then Ok "SUPERHEAVY"
    else if contains "XL" upper || contains "EXTRA" upper then Ok "XL"
    else if contains "COMPACT" upper then Ok "COMPACT"
    else if contains "HEAVY" upper then Ok "HEAVY_DUTY"
    else Ok "STANDARD".

Definition map_cockpit_type (value : string) : result string :=
  let clean := strip value in
  Ok (PyDict.get COCKPIT_TYPE_MAP clean "STANDARD").

Definition map_structure_type (value : string) : result string :=
  let clean := strip value in
  if PyDict.contains STRUCTURE_TYPE_MAP clean
  then PyDict.getitem STRUCTURE_TYPE_MAP clean
  else
    let upper := upper clean in
    if contains "ENDO" upper && contains "COMPOSITE" upper
    then Ok "ENDO_COMPOSITE"
    else if contains "ENDO" upper && contains "CLAN" upper
    then Ok "ENDO_STEEL_CLAN"
    else if contains "ENDO" upper then Ok "ENDO_STEEL"
    else if contains "REINFORCED" upper then Ok "REINFORCED"
    else if contains "COMPOSITE" upper then Ok "COMPOSITE"
    else if contains "INDUSTRIAL" upper then Ok "INDUSTRIAL"
    else Ok "STANDARD".

Definition map_armor_type (value : string) : result string :=
  let clean := strip value in
  if PyDict.contains ARMOR_TYPE_MAP clean
  then PyDict.getitem ARMOR_TYPE_MAP clean
  else
    let upper := upper clean in
    if contains "STEALTH" upper then Ok "STEALTH"
    else if contains "REACTIVE" upper then Ok "REACTIVE"
    else if contains "REFLECTIVE" upper || contains "LASER-REFLECT" upper
    then Ok "REFLECTIVE"
    else if contains "HARDENED" upper then Ok "HARDENED"
    else if contains "HEAVY" upper && contains "FERRO" upper
    then Ok "HEAVY_FERRO_FIBROUS"
    else if contains "LIGHT" upper && contains "FERRO" upper
    then Ok "LIGHT_FERRO_FIBROUS"
    else if contains "FERRO" upper && contains "CLAN" upper
    then Ok "FERRO_FIBROUS_CLAN"
    else if contains "FERRO" upper then Ok "FERRO_FIBROUS"
    else if contains "PRIMITIVE" upper then Ok "PRIMITIVE"
    else if contains "COMMERCIAL" upper then Ok "COMMERCIAL"
    else if contains "IMPACT" upper && contains "RESIST" upper
    then Ok "IMPACT_RESISTANT"
    else if contains "HEAVY" upper && contains "INDUSTRIAL" upper
    then Ok "HEAVY_INDUSTRIAL"
    else if contains "INDUSTRIAL" upper then Ok "INDUSTRIAL"
    else Ok "STANDARD".

Definition map_heat_sink_type (value : string) : result string :=
  let clean := strip value in
  if PyDict.contains HEAT_SINK_TYPE_MAP clean
  then PyDict.getitem HEAT_SINK_TYPE_MAP clean
  else
    let upper := upper clean in
    if contains "DOUBLE" upper && contains "CLAN" upper then Ok "DOUBLE_CLAN"
    else if contains "DOUBLE" upper then Ok "DOUBLE"
    else if contains "COMPACT" upper then Ok "COMPACT"
    else if contains "LASER" upper then Ok "LASER"
    else Ok "SINGLE".

Definition map_mech_location (value : string) : result string :=
  let clean := strip value in
  if PyDict.contains MECH_LOCATION_MAP clean
  then PyDict.getitem MECH_LOCATION_MAP clean
  else
    let lower := lower clean in
    if PyDict.contains ARMOR_LOCATION_KEY_MAP lower
    then PyDict.getitem ARMOR_LOCATION_KEY_MAP lower
    else Ok (replace " " "_" (upper clean)).

Definition map_mech_config (value : string) : result string :=
  let clean := strip value in
  Ok (PyDict.get MECH_CONFIG_MAP clean "Biped").

Definition map_unit_type (value : string) : result string :=
  let clean := strip value in
  Ok (PyDict.get UNIT_TYPE_MAP clean "BattleMech").

(** ** Eras *)

Local Open Scope Z_scope.

Definition map_year_to_era (year : Z) : string :=
  if year <? 2005 then "EARLY_SPACEFLIGHT"
  else if year <? 2571 then "AGE_OF_WAR"
  else if year <? 2781 then "STAR_LEAGUE"
  else if year <? 3050 then "SUCCESSION_WARS"
  else if year <? 3068 then "CLAN_INVASION"
  else if year <? 3081 then "CIVIL_WAR"
  else if year <? 3152 then "DARK_AGE"
  else "ILCLAN".

Local Close Scope Z_scope.

(** ** Identifier slugs *)

(** The double-quote character as a one-character string. *)
Definition double_quote : string := String (ascii_of_nat 34) EmptyString.

(** [inspect a] keeps the equation between a scrutinee and its value. *)
Definition inspect {A : Type} (a : A) : {b : A | a = b} := exist _ a eq_refl.

(** The loop [while "--" in id_str: id_str = id_str.replace("--", "-")].
    Every pass that runs shortens the string, which is the measure the
    recursion is founded on. *)
Equations? collapse_dashes (id_str : string) : string
  by wf (String.length id_str) lt :=
  collapse_dashes id_str with inspect (contains "--" id_str) := {
    | exist _ true _ => collapse_dashes (replace "--" "-" id_str)
    | exist _ false _ => id_str }.
Proof.
  clear collapse_dashes.
  assert (Hle : forall s k, String.length (replace_from "--" "-" k s) <= String.length s).
  { induction s as [|c r IH]; intros k; [simpl; lia|].
    destruct k as [|k]; [|simpl; specialize (IH k); lia].
    cbn [replace_from]. destruct (startswith "--" (String c r)).
    - cbn. specialize (IH 1). lia.
    - cbn. specialize (IH 0). lia. }
  unfold replace. revert e.
  induction id_str as [|c r IH]; intros e; [discriminate|].
  cbn [replace_from]. cbn [contains] in e.
  destruct (startswith "--" (String c r)) eqn:Hp.
  - destruct r as [|d r'].
    + cbn in Hp. rewrite andb_false_r in Hp. discriminate.
    + cbn. specialize (Hle r' 0). lia.
  - cbn in e |- *. specialize (IH e). lia.
Qed.

Definition generate_id_from_name (chassis model : string) : string :=
  let combined := lower (chassis ++ "-" ++ model) in
  let id_str :=
    replace ")" "" (replace "(" "" (replace "/" "-" (replace " " "-" combined))) in
  let id_str :=
    replace "," "" (replace "." "" (replace double_quote "" (replace "'" "" id_str))) in
  let id_str := collapse_dashes id_str in
  strip_chars "-" id_str.

Definition normalize_equipment_id (name : string) : string :=
  let id_str := lower name in
  let id_str := replace "(clan)" "clan" id_str in
  let id_str := replace "(is)" "is" id_str in
  let id_str := replace "(inner sphere)" "is" id_str in
  let id_str := replace " " "-" (replace "/" "-" id_str) in
  let id_str := replace ")" "" (replace "(" "" id_str) in
  let id_str := replace double_quote "" (replace "'" "" id_str) in
  let id_str := collapse_dashes id_str in
  strip_chars "-" id_str.

(** ** The closed enumerations *)

(** Modelled from the spec: the enumeration each category declares.  The
    TypeScript enums the tokens belong to are not part of this repository;
    the interface table of the specification lists the members for tech
    base, rules level, engine, gyro and mech configuration, and gives the
    cockpit enumeration as 14 members.  For the remaining categories the
    enumeration is the set of tokens of the category's alias table. *)
Definition TECH_BASE_ENUM : list string :=
  ["INNER_SPHERE"; "CLAN"; "MIXED"; "BOTH"].

Definition RULES_LEVEL_ENUM : list string :=
  ["INTRODUCTORY"; "STANDARD"; "ADVANCED"; "EXPERIMENTAL"; "UNOFFICIAL"].

Definition ENGINE_TYPE_ENUM : list string :=
  ["FUSION"; "XL"; "CLAN_XL"; "LIGHT"; "COMPACT"; "XXL"; "CLAN_XXL"; "ICE";
   "FUEL_CELL"; "FISSION"].

Definition GYRO_TYPE_ENUM : list string :=
  ["STANDARD"; "XL"; "COMPACT"; "HEAVY_DUTY"; "SUPERHEAVY"; "NONE"].

Definition COCKPIT_TYPE_ENUM : list string :=
  ["STANDARD"; "SMALL"; "COMMAND_CONSOLE"; "TORSO_MOUNTED"; "PRIMITIVE";
   "INDUSTRIAL"; "PRIMITIVE_INDUSTRIAL"; "SUPERHEAVY_INDUSTRIAL";
   "TRIPOD_INDUSTRIAL"; "SUPERHEAVY_TRIPOD_INDUSTRIAL"; "SUPERHEAVY";
   "SUPERHEAVY_TRIPOD"; "INTERFACE"; "QUADVEE"].

Definition STRUCTURE_TYPE_ENUM : list string :=
  ["STANDARD"; "ENDO_STEEL"; "ENDO_STEEL_CLAN"; "ENDO_COMPOSITE"; "REINFORCED";
   "COMPOSITE"; "INDUSTRIAL"].

Definition ARMOR_TYPE_ENUM : list string :=
  ["STANDARD"; "FERRO_FIBROUS"; "FERRO_FIBROUS_CLAN"; "LIGHT_FERRO_FIBROUS";
   "HEAVY_FERRO_FIBROUS"; "STEALTH"; "REACTIVE"; "REFLECTIVE"; "HARDENED";
   "PRIMITIVE"; "INDUSTRIAL"; "COMMERCIAL"; "HEAVY_INDUSTRIAL";
   "IMPACT_RESISTANT"].

Definition HEAT_SINK_TYPE_ENUM : list string :=
  ["SINGLE"; "DOUBLE"; "DOUBLE_CLAN"; "COMPACT"; "LASER"].

Definition MECH_LOCATION_ENUM : list string :=
  ["HEAD"; "CENTER_TORSO"; "LEFT_TORSO"; "RIGHT_TORSO"; "LEFT_ARM";
   "RIGHT_ARM"; "LEFT_LEG"; "RIGHT_LEG"; "CENTER_TORSO_REAR";
   "LEFT_TORSO_REAR"; "RIGHT_TORSO_REAR"; "FRONT_LEFT_LEG";
   "FRONT_RIGHT_LEG"; "REAR_LEFT_LEG"; "REAR_RIGHT_LEG"].

Definition MECH_CONFIG_ENUM : list string :=
  ["Biped"; "Quad"; "Tripod"; "LAM"; "QuadVee"].

Definition UNIT_TYPE_ENUM : list string :=
  ["BattleMech"; "OmniMech"; "IndustrialMech"; "ProtoMech"; "Vehicle"; "VTOL";
   "Aerospace"; "Conventional Fighter"; "Small Craft"; "DropShip"; "JumpShip";
   "WarShip"; "Space Station"; "Infantry"; "Battle Armor"; "Support Vehicle"].

Definition ERA_ENUM : list string :=
  ["EARLY_SPACEFLIGHT"; "AGE_OF_WAR"; "STAR_LEAGUE"; "SUCCESSION_WARS";
   "CLAN_INVASION"; "CIVIL_WAR"; "DARK_AGE"; "ILCLAN"].

(** ** Properties a mapping function can have *)

Definition mapper : Type := string -> result string.

(** [f] returns a value on every input. *)
Definition never_raises (f : mapper) : Prop :=
  forall value, exists token, f value = Ok token.

(** [f] returns a member of [enum] on every input. *)
Definition ranges_over (f : mapper) (enum : list string) : Prop :=
  forall value, exists token, f value = Ok token /\ In token enum.

(** Feeding [f] one of its results that is a key of [table] gives that
    result back. *)
Definition idempotent_on_keys (f : mapper) (table : PyDict.dict) : Prop :=
  forall value token,
    f value = Ok token ->
    PyDict.contains table token = true ->
    f token = Ok token.

(** Boolean membership and inclusion, for the checks that are settled by
    evaluation. *)
Definition mem (v : string) (l : list string) : bool :=
  existsb (String.eqb v) l.

Definition all_in (l enum : list string) : bool :=
  forallb (fun v => mem v enum) l.

Definition result_eqb (r1 r2 : result string) : bool :=
  match r1, r2 with
  | Ok a, Ok b => String.eqb a b
  | Raise (KeyError a), Raise (KeyError b) => String.eqb a b
  | _, _ => false
  end.

Fixpoint distinct (l : list string) : bool :=
  match l with
  | [] => true
  | v :: rest => (negb (mem v rest) && distinct rest)%bool
  end.

(** * Proofs *)

(** ** Membership by evaluation *)

Lemma mem_In (v : string) (l : list string) : mem v l = true -> In v l.
Proof.
  unfold mem. rewrite existsb_exists. intros [w [Hin Heq]].
  apply String.eqb_eq in Heq. now subst.
Qed.

Lemma In_mem (v : string) (l : list string) : In v l -> mem v l = true.
Proof.
  intros Hin. unfold mem. rewrite existsb_exists.
  exists v. split; [assumption | apply String.eqb_refl].
Qed.

Lemma all_in_incl (l enum : list string) : all_in l enum = true -> incl l enum.
Proof.
  unfold all_in. rewrite forallb_forall. intros H v Hv.
  apply mem_In, H, Hv.
Qed.

Lemma distinct_NoDup (l : list string) : distinct l = true -> NoDup l.
Proof.
  induction l as [|v rest IH]; simpl; intros H; [constructor|].
  apply andb_true_iff in H as [Hv Hrest].
  constructor; [|auto].
  intros Hin. apply In_mem in Hin. rewrite Hin in Hv. discriminate.
Qed.

(** ** Dictionary reads *)

Module DictFacts.

Import PyDict.

Lemma lookup_In (d : dict) (k v : string) :
  lookup d k = Some v -> In (k, v) d.
Proof.
  induction d as [|[k' v'] rest IH]; simpl; [discriminate|].
  destruct (String.eqb k k') eqn:E.
  - apply String.eqb_eq in E. intros [= ->]. subst. now left.
  - intros H. right. auto.
Qed.

Lemma lookup_value (d : dict) (k v : string) :
  lookup d k = Some v -> In v (values d).
Proof.
  intros H. apply lookup_In in H.
  unfold values. change v with (snd (k, v)). now apply in_map.
Qed.

Lemma contains_true (d : dict) (k : string) :
  contains d k = true -> exists v, lookup d k = Some v.
Proof.
  unfold contains. destruct (lookup d k) as [v|]; [eauto | discriminate].
Qed.

Lemma contains_false (d : dict) (k : string) :
  contains d k = false -> lookup d k = None.
Proof.
  unfold contains. destruct (lookup d k); [discriminate | reflexivity].
Qed.

(** A guarded subscript does not raise, and yields a token of the table. *)
Lemma getitem_guarded (d : dict) (k : string) :
  contains d k = true ->
  exists v, getitem d k = Ok v /\ In (k, v) d.
Proof.
  intros H. apply contains_true in H as [v Hv].
  exists v. unfold getitem. rewrite Hv. split; [reflexivity|].
  now apply lookup_In.
Qed.

Lemma getitem_in_enum (d : dict) (k : string) (enum : list string) :
  incl (values d) enum ->
  contains d k = true ->
  exists v, getitem d k = Ok v /\ In v enum.
Proof.
  intros Hincl H. apply getitem_guarded in H as [v [Hv Hin]].
  exists v. split; [assumption|].
  apply Hincl. unfold values. change v with (snd (k, v)). now apply in_map.
Qed.

Lemma get_in_enum (d : dict) (k default : string) (enum : list string) :
  incl (values d) enum ->
  In default enum ->
  In (get d k default) enum.
Proof.
  intros Hincl Hdef. unfold get.
  destruct (lookup d k) as [v|] eqn:E; [|assumption].
  apply Hincl. eapply lookup_value, E.
Qed.

Lemma get_miss (d : dict) (k default : string) :
  contains d k = false -> get d k default = default.
Proof.
  intros H. unfold get. now rewrite (contains_false _ _ H).
Qed.

Lemma get_hit (d : dict) (k default : string) :
  contains d k = true -> getitem d k = Ok (get d k default).
Proof.
  intros H. apply contains_true in H as [v Hv].
  unfold get, getitem. now rewrite Hv.
Qed.

End DictFacts.

(** The association lists read like the [dict] literals: no key is
    written twice, so the first binding found is the only one. *)
Lemma tables_have_distinct_keys :
  Forall (fun table => NoDup (PyDict.keys table))
    [TECH_BASE_MAP; RULES_LEVEL_MAP; ENGINE_TYPE_MAP; GYRO_TYPE_MAP;
     COCKPIT_TYPE_MAP; STRUCTURE_TYPE_MAP; ARMOR_TYPE_MAP;
     HEAT_SINK_TYPE_MAP; MECH_LOCATION_MAP; ARMOR_LOCATION_KEY_MAP;
     MECH_CONFIG_MAP; UNIT_TYPE_MAP].
Proof.
  repeat (apply Forall_cons;
          [apply distinct_NoDup; vm_compute; reflexivity|]).
  apply Forall_nil.
Qed.

(** ** Range of each mapping function *)

Ltac in_enum := apply mem_In; vm_compute; reflexivity.
Ltac table_in_enum := apply all_in_incl; vm_compute; reflexivity.

(** The chain of early returns after a missed table lookup: every branch
    ends in a literal token. *)
Ltac literal_branches :=
  repeat match goal with
         | |- context [if ?b then _ else _] => destruct b
         end;
  eexists; (split; [reflexivity | in_enum]).

Ltac table_then_branches table :=
  intros value;
  match goal with
  | |- context [PyDict.contains table ?k] =>
      destruct (PyDict.contains table k) eqn:Hkey;
      [ apply DictFacts.getitem_in_enum; [table_in_enum | exact Hkey]
      | literal_branches ]
  end.

Ltac get_with_default :=
  intros value; eexists; split; [reflexivity|];
  apply DictFacts.get_in_enum; [table_in_enum | in_enum].

Lemma map_tech_base_range : ranges_over map_tech_base TECH_BASE_ENUM.
Proof.
  intros value. eexists; split; [reflexivity|].
  apply DictFacts.get_in_enum; [table_in_enum|].
  apply DictFacts.get_in_enum; [table_in_enum | in_enum].
Qed.

Lemma first_digit_level_range (clean level : string) :
  first_digit_level clean = Some level -> In level RULES_LEVEL_ENUM.
Proof.
  induction clean as [|char rest IH]; cbn [first_digit_level];
    [discriminate|].
  destruct (isdigit char); [|exact IH].
  intros [= <-].
  apply DictFacts.get_in_enum; [table_in_enum | in_enum].
Qed.

Lemma map_rules_level_range : ranges_over map_rules_level RULES_LEVEL_ENUM.
Proof.
  unfold map_rules_level. intros value. cbv zeta.
  destruct (PyDict.contains RULES_LEVEL_MAP (strip value)) eqn:Hkey.
  - apply DictFacts.getitem_in_enum; [table_in_enum | exact Hkey].
  - destruct (first_digit_level (strip value)) as [level|] eqn:Hdigit.
    + exists level. split; [reflexivity|].
      eapply first_digit_level_range, Hdigit.
    + eexists; split; [reflexivity | in_enum].
Qed.

Lemma map_engine_type_range : ranges_over map_engine_type ENGINE_TYPE_ENUM.
Proof. unfold map_engine_type. table_then_branches ENGINE_TYPE_MAP. Qed.

Lemma map_gyro_type_range : ranges_over map_gyro_type GYRO_TYPE_ENUM.
Proof. unfold map_gyro_type. table_then_branches GYRO_TYPE_MAP. Qed.

Lemma map_cockpit_type_range : ranges_over map_cockpit_type COCKPIT_TYPE_ENUM.
Proof. unfold map_cockpit_type. get_with_default. Qed.

Lemma map_structure_type_range :
  ranges_over map_structure_type STRUCTURE_TYPE_ENUM.
Proof. unfold map_structure_type. table_then_branches STRUCTURE_TYPE_MAP. Qed.

Lemma map_armor_type_range : ranges_over map_armor_type ARMOR_TYPE_ENUM.
Proof. unfold map_armor_type. table_then_branches ARMOR_TYPE_MAP. Qed.

Lemma map_heat_sink_type_range :
  ranges_over map_heat_sink_type HEAT_SINK_TYPE_ENUM.
Proof. unfold map_heat_sink_type. table_then_branches HEAT_SINK_TYPE_MAP. Qed.

Lemma map_mech_config_range : ranges_over map_mech_config MECH_CONFIG_ENUM.
Proof. unfold map_mech_config. get_with_default. Qed.

Lemma map_unit_type_range : ranges_over map_unit_type UNIT_TYPE_ENUM.
Proof. unfold map_unit_type. get_with_default. Qed.

Lemma ranges_over_never_raises (f : mapper) (enum : list string) :
  ranges_over f enum -> never_raises f.
Proof.
  intros H value. destruct (H value) as [token [Htoken _]]. eauto.
Qed.

(** The location function returns on every input as well, though not
    always inside the enumeration. *)
Lemma map_mech_location_returns : never_raises map_mech_location.
Proof.
  unfold map_mech_location. intros value. cbv zeta.
  destruct (PyDict.contains MECH_LOCATION_MAP (strip value)) eqn:Hkey.
  - apply DictFacts.getitem_guarded in Hkey as [v [Hv _]]. eauto.
  - destruct (PyDict.contains ARMOR_LOCATION_KEY_MAP (lower (strip value)))
      eqn:Hkey'.
    + apply DictFacts.getitem_guarded in Hkey' as [v [Hv _]]. eauto.
    + eauto.
Qed.

(** ** The model on concrete inputs *)

Example strip_trims_both_ends :
  strip (String (ascii_of_nat 9) " Left Arm  ") = "Left Arm".
Proof. reflexivity. Qed.

Example title_restarts_after_uncased :
  title "mixed (IS chassis) l2" = "Mixed (Is Chassis) L2".
Proof. reflexivity. Qed.

Example replace_does_not_overlap : replace "--" "-" "a---b----c" = "a--b--c".
Proof. reflexivity. Qed.

Example collapse_dashes_iterates : collapse_dashes "a---b----c" = "a-b-c".
Proof. reflexivity. Qed.

Example map_tech_base_retries_title_case : map_tech_base " clan " = Ok "CLAN".
Proof. reflexivity. Qed.

Example map_rules_level_first_digit :
  map_rules_level "Level 3 (was 1)" = Ok "EXPERIMENTAL" /\
  map_rules_level "TL 7" = Ok "STANDARD".
Proof. split; reflexivity. Qed.

Example generate_id_strips_and_collapses :
  generate_id_from_name "A - -(B)" "--/C.d" = "a-b-cd".
Proof. vm_compute. reflexivity. Qed.

(** Each enumeration is exactly the set of tokens of its table (of the
    two location tables for the location category). *)
Lemma enumerations_are_table_tokens :
  Forall (fun te : PyDict.dict * list string =>
            incl (PyDict.values (fst te)) (snd te) /\
            incl (snd te) (PyDict.values (fst te)))
    [(TECH_BASE_MAP, TECH_BASE_ENUM); (RULES_LEVEL_MAP, RULES_LEVEL_ENUM);
     (ENGINE_TYPE_MAP, ENGINE_TYPE_ENUM); (GYRO_TYPE_MAP, GYRO_TYPE_ENUM);
     (COCKPIT_TYPE_MAP, COCKPIT_TYPE_ENUM);
     (STRUCTURE_TYPE_MAP, STRUCTURE_TYPE_ENUM);
     (ARMOR_TYPE_MAP, ARMOR_TYPE_ENUM);
     (HEAT_SINK_TYPE_MAP, HEAT_SINK_TYPE_ENUM);
     (MECH_LOCATION_MAP ++ ARMOR_LOCATION_KEY_MAP, MECH_LOCATION_ENUM);
     (MECH_CONFIG_MAP, MECH_CONFIG_ENUM); (UNIT_TYPE_MAP, UNIT_TYPE_ENUM)].
Proof.
  repeat (apply Forall_cons;
          [split; apply all_in_incl; vm_compute; reflexivity|]).
  apply Forall_nil.
Qed.

(** ** Totality and closed range *)

(** C1 (totality): each of the eleven category mapping functions returns
    a value on every input string; none of them raises.  The empty string
    and the strings that hit no alias and no substring test are inputs
    like any other. *)
Theorem mapping_functions_never_raise :
  never_raises map_tech_base /\
  never_raises map_rules_level /\
  never_raises map_engine_type /\
  never_raises map_gyro_type /\
  never_raises map_cockpit_type /\
  never_raises map_structure_type /\
  never_raises map_armor_type /\
  never_raises map_heat_sink_type /\
  never_raises map_mech_location /\
  never_raises map_mech_config /\
  never_raises map_unit_type.
Proof.
  repeat split;
    first [ exact map_mech_location_returns
          | eapply ranges_over_never_raises;
            first [ exact map_tech_base_range
                  | exact map_rules_level_range
                  | exact map_engine_type_range
                  | exact map_gyro_type_range
                  | exact map_cockpit_type_range
                  | exact map_structure_type_range
                  | exact map_armor_type_range
                  | exact map_heat_sink_type_range
                  | exact map_mech_config_range
                  | exact map_unit_type_range ] ].
Qed.

(** C2 (closed range): every category mapping function other than
    [map_mech_location] returns, on every input string, a member of the
    closed enumeration of its category. *)
Theorem mapping_functions_closed_range :
  ranges_over map_tech_base TECH_BASE_ENUM /\
  ranges_over map_rules_level RULES_LEVEL_ENUM /\
  ranges_over map_engine_type ENGINE_TYPE_ENUM /\
  ranges_over map_gyro_type GYRO_TYPE_ENUM /\
  ranges_over map_cockpit_type COCKPIT_TYPE_ENUM /\
  ranges_over map_structure_type STRUCTURE_TYPE_ENUM /\
  ranges_over map_armor_type ARMOR_TYPE_ENUM /\
  ranges_over map_heat_sink_type HEAT_SINK_TYPE_ENUM /\
  ranges_over map_mech_config MECH_CONFIG_ENUM /\
  ranges_over map_unit_type UNIT_TYPE_ENUM.
Proof.
  repeat split.
  - exact map_tech_base_range.
  - exact map_rules_level_range.
  - exact map_engine_type_range.
  - exact map_gyro_type_range.
  - exact map_cockpit_type_range.
  - exact map_structure_type_range.
  - exact map_armor_type_range.
  - exact map_heat_sink_type_range.
  - exact map_mech_config_range.
  - exact map_unit_type_range.
Qed.

(** ** Eras *)

Section Eras.

Local Open Scope Z_scope.

(** One year from each branch of [map_year_to_era]. *)
Definition era_sample_years : list Z :=
  [2004; 2005; 2571; 2781; 3050; 3068; 3081; 3152].

Lemma era_samples_distinct : NoDup (map map_year_to_era era_sample_years).
Proof. apply distinct_NoDup. vm_compute. reflexivity. Qed.

(** C3, as stated, fails: the eight sample years are sent to eight
    different tokens, so no set of seven tokens holds every result. *)
Lemma map_year_to_era_exceeds_seven_tokens :
  length (map map_year_to_era era_sample_years) = 8%nat /\
  NoDup (map map_year_to_era era_sample_years) /\
  ~ (exists tokens : list string,
        length tokens = 7%nat /\
        forall year, In (map_year_to_era year) tokens).
Proof.
  split; [reflexivity|]. split; [exact era_samples_distinct|].
  intros [tokens [Hlen Hall]].
  assert (Hincl : incl (map map_year_to_era era_sample_years) tokens).
  { intros token Hin. apply in_map_iff in Hin as [year [<- _]]. apply Hall. }
  pose proof (NoDup_incl_length era_samples_distinct Hincl) as Hle.
  rewrite Hlen in Hle. simpl in Hle. lia.
Qed.

(** C3 (amended): [map_year_to_era] classifies a year by seven
    thresholds into eight contiguous half-open intervals that cover every
    integer, one era token for each interval, and its result is always
    one of these 8 tokens. *)
Theorem map_year_to_era_classification :
  length ERA_ENUM = 8%nat /\
  NoDup ERA_ENUM /\
  forall year,
    In (map_year_to_era year) ERA_ENUM /\
    (map_year_to_era year = "EARLY_SPACEFLIGHT" <-> year < 2005) /\
    (map_year_to_era year = "AGE_OF_WAR" <-> 2005 <= year < 2571) /\
    (map_year_to_era year = "STAR_LEAGUE" <-> 2571 <= year < 2781) /\
    (map_year_to_era year = "SUCCESSION_WARS" <-> 2781 <= year < 3050) /\
    (map_year_to_era year = "CLAN_INVASION" <-> 3050 <= year < 3068) /\
    (map_year_to_era year = "CIVIL_WAR" <-> 3068 <= year < 3081) /\
    (map_year_to_era year = "DARK_AGE" <-> 3081 <= year < 3152) /\
    (map_year_to_era year = "ILCLAN" <-> 3152 <= year).
Proof.
  split; [reflexivity|].
  split; [apply distinct_NoDup; vm_compute; reflexivity|].
  intros year. unfold map_year_to_era.
  repeat match goal with
         | |- context [year <? ?t] => destruct (Z.ltb_spec year t)
         end;
    (split; [in_enum|]);
    repeat split; intros; try lia; try discriminate.
Qed.

(** C5 (era boundaries): 3049 is the last year of the Succession Wars and
    3050 the first of the Clan Invasion; 3067 is the last year of the
    Clan Invasion and 3068 the first of the Civil War. *)
Theorem map_year_to_era_boundaries :
  map_year_to_era 3049 = "SUCCESSION_WARS" /\
  map_year_to_era 3050 = "CLAN_INVASION" /\
  map_year_to_era 3067 = "CLAN_INVASION" /\
  map_year_to_era 3068 = "CIVIL_WAR".
Proof. repeat split. Qed.

End Eras.

(** ** Fallback defaults and priorities *)

(** C4, as stated, fails: the empty string hits no alias and none of the
    heat-sink substring tests, and the function returns [SINGLE];
    [STANDARD] is not even a member of the heat-sink enumeration. *)
Lemma map_heat_sink_type_default_not_standard :
  PyDict.contains HEAT_SINK_TYPE_MAP (strip "") = false /\
  contains "DOUBLE" (upper (strip "")) = false /\
  contains "CLAN" (upper (strip "")) = false /\
  contains "COMPACT" (upper (strip "")) = false /\
  contains "LASER" (upper (strip "")) = false /\
  map_heat_sink_type "" = Ok "SINGLE" /\
  map_heat_sink_type "" <> Ok "STANDARD" /\
  ~ In "STANDARD" HEAT_SINK_TYPE_ENUM.
Proof.
  repeat split; try discriminate.
  intros Hin. apply In_mem in Hin. vm_compute in Hin. discriminate.
Qed.

(** C4 (amended): an input whose trimmed form is no alias of the
    heat-sink table and whose upper-cased form passes none of the
    substring tests (DOUBLE with CLAN, DOUBLE, COMPACT, LASER) is mapped
    to the fixed default [SINGLE]. *)
Theorem map_heat_sink_type_default (value : string) :
  PyDict.contains HEAT_SINK_TYPE_MAP (strip value) = false ->
  (contains "DOUBLE" (upper (strip value))
   && contains "CLAN" (upper (strip value)))%bool = false ->
  contains "DOUBLE" (upper (strip value)) = false ->
  contains "COMPACT" (upper (strip value)) = false ->
  contains "LASER" (upper (strip value)) = false ->
  map_heat_sink_type value = Ok "SINGLE".
Proof.
  intros Hkey Hdc Hd Hc Hl. unfold map_heat_sink_type. cbv zeta.
  rewrite Hkey, Hd, Hc, Hl. reflexivity.
Qed.

Lemma map_heat_sink_type_default_witness :
  map_heat_sink_type "  Prototype Heat Sink " = Ok "SINGLE".
Proof.
  apply (map_heat_sink_type_default "  Prototype Heat Sink ");
    vm_compute; reflexivity.
Defined.

(** C6, as stated, fails: the trimmed input [Hd] is a key of neither
    location table, yet the function does not return [HD]; the second
    table is consulted with the lower-cased input, which is the key [hd]
    of the armor table. *)
Lemma map_mech_location_lowercased_lookup :
  strip "Hd" = "Hd" /\
  PyDict.contains MECH_LOCATION_MAP "Hd" = false /\
  PyDict.contains ARMOR_LOCATION_KEY_MAP "Hd" = false /\
  replace " " "_" (upper "Hd") = "HD" /\
  map_mech_location "Hd" = Ok "HEAD" /\
  map_mech_location "Hd" <> Ok (replace " " "_" (upper (strip "Hd"))).
Proof. repeat split; try discriminate. Qed.

(** C6 (amended): when the trimmed input is not a key of
    [MECH_LOCATION_MAP] and its lower-cased form is not a key of
    [ARMOR_LOCATION_KEY_MAP], [map_mech_location] returns the trimmed
    input upper-cased with spaces replaced by underscores, and checks no
    membership in the closed location enumeration; [Turret] is mapped to
    [TURRET], which is outside that enumeration. *)
Theorem map_mech_location_fallback :
  (forall value,
      PyDict.contains MECH_LOCATION_MAP (strip value) = false ->
      PyDict.contains ARMOR_LOCATION_KEY_MAP (lower (strip value)) = false ->
      map_mech_location value
      = Ok (replace " " "_" (upper (strip value)))) /\
  map_mech_location "Turret" = Ok "TURRET" /\
  ~ In "TURRET" MECH_LOCATION_ENUM.
Proof.
  split; [|split].
  - intros value Hkey Hkey'. unfold map_mech_location. cbv zeta.
    rewrite Hkey, Hkey'. reflexivity.
  - reflexivity.
  - intros Hin. apply In_mem in Hin. vm_compute in Hin. discriminate.
Qed.

Lemma map_mech_location_fallback_witness :
  map_mech_location " Rear Turret "
  = Ok (replace " " "_" (upper (strip " Rear Turret "))) /\
  replace " " "_" (upper (strip " Rear Turret ")) = "REAR_TURRET".
Proof.
  split; [|reflexivity].
  apply (proj1 map_mech_location_fallback " Rear Turret ");
    vm_compute; reflexivity.
Defined.

(** The input is no alias and passes none of the tests the fallback of
    [map_armor_type] makes before the tests on FERRO. *)
Definition reaches_ferro_tests (value : string) : Prop :=
  PyDict.contains ARMOR_TYPE_MAP (strip value) = false /\
  contains "STEALTH" (upper (strip value)) = false /\
  contains "REACTIVE" (upper (strip value)) = false /\
  contains "REFLECTIVE" (upper (strip value)) = false /\
  contains "LASER-REFLECT" (upper (strip value)) = false /\
  contains "HARDENED" (upper (strip value)) = false.

(** C7 (armor priority): [Heavy Ferro-Fibrous Armor] is mapped to
    [HEAVY_FERRO_FIBROUS]; and in the fallback the compound tests (HEAVY
    with FERRO, LIGHT with FERRO, FERRO with CLAN) come before the test
    for FERRO alone.  So an input that is no alias, whose upper-cased form
    contains both HEAVY and FERRO and passes none of the earlier tests
    (STEALTH, REACTIVE, REFLECTIVE or LASER-REFLECT, HARDENED), is mapped
    to [HEAVY_FERRO_FIBROUS]; likewise LIGHT with FERRO gives
    [LIGHT_FERRO_FIBROUS] when HEAVY is absent, and FERRO with CLAN gives
    [FERRO_FIBROUS_CLAN] when HEAVY and LIGHT are absent; the generic
    [FERRO_FIBROUS] is returned for an input with FERRO exactly when none
    of HEAVY, LIGHT and CLAN occurs in it. *)
Theorem map_armor_type_heavy_ferro_priority :
  map_armor_type "Heavy Ferro-Fibrous Armor" = Ok "HEAVY_FERRO_FIBROUS" /\
  (forall value,
      PyDict.contains ARMOR_TYPE_MAP (strip value) = false ->
      contains "HEAVY" (upper (strip value)) = true ->
      contains "FERRO" (upper (strip value)) = true ->
      contains "STEALTH" (upper (strip value)) = false ->
      contains "REACTIVE" (upper (strip value)) = false ->
      contains "REFLECTIVE" (upper (strip value)) = false ->
      contains "LASER-REFLECT" (upper (strip value)) = false ->
      contains "HARDENED" (upper (strip value)) = false ->
      map_armor_type value = Ok "HEAVY_FERRO_FIBROUS") /\
  (forall value,
      reaches_ferro_tests value ->
      contains "FERRO" (upper (strip value)) = true ->
      contains "HEAVY" (upper (strip value)) = false ->
      contains "LIGHT" (upper (strip value)) = true ->
      map_armor_type value = Ok "LIGHT_FERRO_FIBROUS") /\
  (forall value,
      reaches_ferro_tests value ->
      contains "FERRO" (upper (strip value)) = true ->
      contains "HEAVY" (upper (strip value)) = false ->
      contains "LIGHT" (upper (strip value)) = false ->
      contains "CLAN" (upper (strip value)) = true ->
      map_armor_type value = Ok "FERRO_FIBROUS_CLAN") /\
  (forall value,
      reaches_ferro_tests value ->
      contains "FERRO" (upper (strip value)) = true ->
      (map_armor_type value = Ok "FERRO_FIBROUS" <->
       contains "HEAVY" (upper (strip value)) = false /\
       contains "LIGHT" (upper (strip value)) = false /\
       contains "CLAN" (upper (strip value)) = false)).
Proof.
  split; [reflexivity|]. split; [|split; [|split]].
  - intros value Hkey Hheavy Hferro Hs Hr Hrf Hlr Hh.
    unfold map_armor_type. cbv zeta.
    rewrite Hkey, Hs, Hr, Hrf, Hlr, Hh, Hheavy, Hferro. reflexivity.
  - intros value (Hkey & Hs & Hr & Hrf & Hlr & Hh) Hferro Hheavy Hlight.
    unfold map_armor_type. cbv zeta.
    rewrite Hkey, Hs, Hr, Hrf, Hlr, Hh, Hheavy, Hlight, Hferro. reflexivity.
  - intros value (Hkey & Hs & Hr & Hrf & Hlr & Hh) Hferro Hheavy Hlight Hclan.
    unfold map_armor_type. cbv zeta.
    rewrite Hkey, Hs, Hr, Hrf, Hlr, Hh, Hheavy, Hlight, Hferro, Hclan.
    reflexivity.
  - intros value (Hkey & Hs & Hr & Hrf & Hlr & Hh) Hferro.
    unfold map_armor_type. cbv zeta.
    rewrite Hkey, Hs, Hr, Hrf, Hlr, Hh, Hferro. cbn [orb andb].
    destruct (contains "HEAVY" (upper (strip value)));
      destruct (contains "LIGHT" (upper (strip value)));
      destruct (contains "CLAN" (upper (strip value)));
      cbn [andb]; split;
      first [ intros Heq; discriminate Heq
            | intros (H1 & H2 & H3); discriminate
            | intros _; repeat split; reflexivity
            | reflexivity ].
Qed.

Lemma map_armor_type_heavy_ferro_priority_witness :
  PyDict.contains ARMOR_TYPE_MAP (strip "Heavy Ferro-Fibrous (IS)") = false /\
  map_armor_type "Heavy Ferro-Fibrous (IS)" = Ok "HEAVY_FERRO_FIBROUS" /\
  map_armor_type "Light Ferro (Clan)" = Ok "LIGHT_FERRO_FIBROUS" /\
  map_armor_type "Ferro Plating (Clan)" = Ok "FERRO_FIBROUS_CLAN" /\
  map_armor_type "Ferro Plating" = Ok "FERRO_FIBROUS".
Proof.
  destruct map_armor_type_heavy_ferro_priority
    as (_ & Hheavy & Hlight & Hclan & Hplain).
  split; [reflexivity|]. split; [|split; [|split]].
  - apply (Hheavy "Heavy Ferro-Fibrous (IS)"); vm_compute; reflexivity.
  - apply (Hlight "Light Ferro (Clan)");
      first [ vm_compute; reflexivity
            | unfold reaches_ferro_tests; vm_compute; repeat split ].
  - apply (Hclan "Ferro Plating (Clan)");
      first [ vm_compute; reflexivity
            | unfold reaches_ferro_tests; vm_compute; repeat split ].
  - apply (Hplain "Ferro Plating");
      first [ vm_compute; reflexivity
            | unfold reaches_ferro_tests; vm_compute; repeat split ].
Defined.

(** ** Idempotence on canonical inputs *)

Lemma result_eqb_eq (r1 r2 : result string) :
  result_eqb r1 r2 = true -> r1 = r2.
Proof.
  destruct r1 as [a|[a]], r2 as [b|[b]]; simpl; try discriminate;
    intros H; apply String.eqb_eq in H; now subst.
Qed.

(** The tokens of [enum] that are keys of [table] are fixed by [f]. *)
Definition fixes_enum_keys
  (f : mapper) (table : PyDict.dict) (enum : list string) : bool :=
  forallb
    (fun token =>
       implb (PyDict.contains table token) (result_eqb (f token) (Ok token)))
    enum.

Lemma idempotent_by_enum
  (f : mapper) (table : PyDict.dict) (enum : list string) :
  ranges_over f enum ->
  fixes_enum_keys f table enum = true ->
  idempotent_on_keys f table.
Proof.
  intros Hrange Hfix value token Hf Hkey.
  destruct (Hrange value) as [token' [Hf' Hin]].
  rewrite Hf in Hf'. injection Hf' as <-.
  unfold fixes_enum_keys in Hfix. rewrite forallb_forall in Hfix.
  specialize (Hfix token Hin). rewrite Hkey in Hfix.
  now apply result_eqb_eq.
Qed.

(** C8, as stated, fails for the location category: [fll] falls through
    both tables to the generic transform, which yields [FLL]; that is a
    key of [MECH_LOCATION_MAP], and mapping it again yields
    [FRONT_LEFT_LEG]. *)
Lemma map_mech_location_not_idempotent :
  map_mech_location "fll" = Ok "FLL" /\
  PyDict.contains MECH_LOCATION_MAP "FLL" = true /\
  map_mech_location "FLL" = Ok "FRONT_LEFT_LEG" /\
  ~ idempotent_on_keys map_mech_location MECH_LOCATION_MAP.
Proof.
  repeat split.
  intros H. specialize (H "fll" "FLL" eq_refl eq_refl). discriminate.
Qed.

(** C8 (amended): for every category mapping function [f] other than
    [map_mech_location], and every input [x] such that [f x] is itself a
    key of the alias table of the category, [f (f x) = f x]. *)
Theorem mapping_functions_idempotent_on_keys :
  idempotent_on_keys map_tech_base TECH_BASE_MAP /\
  idempotent_on_keys map_rules_level RULES_LEVEL_MAP /\
  idempotent_on_keys map_engine_type ENGINE_TYPE_MAP /\
  idempotent_on_keys map_gyro_type GYRO_TYPE_MAP /\
  idempotent_on_keys map_cockpit_type COCKPIT_TYPE_MAP /\
  idempotent_on_keys map_structure_type STRUCTURE_TYPE_MAP /\
  idempotent_on_keys map_armor_type ARMOR_TYPE_MAP /\
  idempotent_on_keys map_heat_sink_type HEAT_SINK_TYPE_MAP /\
  idempotent_on_keys map_mech_config MECH_CONFIG_MAP /\
  idempotent_on_keys map_unit_type UNIT_TYPE_MAP.
Proof.
  repeat split.
  - apply (idempotent_by_enum _ _ _ map_tech_base_range). vm_compute. reflexivity.
  - apply (idempotent_by_enum _ _ _ map_rules_level_range). vm_compute. reflexivity.
  - apply (idempotent_by_enum _ _ _ map_engine_type_range). vm_compute. reflexivity.
  - apply (idempotent_by_enum _ _ _ map_gyro_type_range). vm_compute. reflexivity.
  - apply (idempotent_by_enum _ _ _ map_cockpit_type_range). vm_compute. reflexivity.
  - apply (idempotent_by_enum _ _ _ map_structure_type_range). vm_compute. reflexivity.
  - apply (idempotent_by_enum _ _ _ map_armor_type_range). vm_compute. reflexivity.
  - apply (idempotent_by_enum _ _ _ map_heat_sink_type_range). vm_compute. reflexivity.
  - apply (idempotent_by_enum _ _ _ map_mech_config_range). vm_compute. reflexivity.
  - apply (idempotent_by_enum _ _ _ map_unit_type_range). vm_compute. reflexivity.
Qed.

Lemma mapping_functions_idempotent_on_keys_witness :
  map_unit_type "Mech" = Ok "BattleMech" /\
  PyDict.contains UNIT_TYPE_MAP "BattleMech" = true /\
  map_unit_type "BattleMech" = Ok "BattleMech".
Proof.
  split; [reflexivity|]. split; [reflexivity|].
  destruct mapping_functions_idempotent_on_keys
    as (_ & _ & _ & _ & _ & _ & _ & _ & _ & Hunit).
  apply (Hunit "Mech" "BattleMech"); reflexivity.
Defined.

(** Which tokens are fixed points that the hypothesis of C8 reaches:
    every token of the mech-configuration and unit-type enumerations is a
    key of its table, and [ICE] is the one engine token that is. *)
Lemma canonical_keys :
  all_in MECH_CONFIG_ENUM (PyDict.keys MECH_CONFIG_MAP) = true /\
  all_in UNIT_TYPE_ENUM (PyDict.keys UNIT_TYPE_MAP) = true /\
  filter (PyDict.contains ENGINE_TYPE_MAP) ENGINE_TYPE_ENUM = ["ICE"].
Proof. repeat split. Qed.

(** ** Slugs *)

(** The loop ends only when no doubled dash is left. *)
Lemma collapse_dashes_no_double_dash (id_str : string) :
  contains "--" (collapse_dashes id_str) = false.
Proof.
  funelim (collapse_dashes id_str); [assumption|].
  match goal with Hfalse : contains "--" _ = false |- _ => exact Hfalse end.
Qed.

(** C9 (slug scenarios): chassis [Atlas] with model [AS7-D] gives the id
    [atlas-as7-d], and the equipment name [Gauss Rifle (Clan)] gives
    [gauss-rifle-clan]. *)
Theorem slug_scenarios :
  generate_id_from_name "Atlas" "AS7-D" = "atlas-as7-d" /\
  normalize_equipment_id "Gauss Rifle (Clan)" = "gauss-rifle-clan".
Proof. split; vm_compute; reflexivity. Qed.

(** ** The Clan XXL engine token *)

(** The keys that [table] binds to [token]. *)
Definition aliases_of (table : PyDict.dict) (token : string) : list string :=
  PyDict.keys (filter (fun kv => String.eqb (snd kv) token) table).

Lemma In_aliases_of (table : PyDict.dict) (k token : string) :
  In (k, token) table -> In k (aliases_of table token).
Proof.
  intros Hin. unfold aliases_of, PyDict.keys.
  change k with (fst (k, token)). apply in_map.
  apply filter_In. split; [assumption|]. apply String.eqb_refl.
Qed.

Lemma map_engine_type_fallback_not_clan_xxl (value : string) :
  PyDict.contains ENGINE_TYPE_MAP (strip value) = false ->
  map_engine_type value <> Ok "CLAN_XXL".
Proof.
  intros Hkey. unfold map_engine_type. cbv zeta. rewrite Hkey.
  repeat match goal with
         | |- context [if ?b then _ else _] => destruct b
         end; discriminate.
Qed.

(** C10, as stated, fails in its last part: [5] is an alias of [XXL], not
    of [CLAN_XXL]. *)
Lemma map_engine_type_code_5_is_xxl :
  PyDict.lookup ENGINE_TYPE_MAP "5" = Some "XXL" /\
  map_engine_type "5" = Ok "XXL" /\
  map_engine_type "5" <> Ok "CLAN_XXL".
Proof. repeat split; discriminate. Qed.

(** C10 (amended): an input whose trimmed form is not a key of
    [ENGINE_TYPE_MAP] is never mapped to [CLAN_XXL], since the test for
    XXL comes before the test for XL with CLAN: [Clan XXL Engine] is
    mapped to [XXL].  [CLAN_XXL] is returned exactly for the inputs whose
    trimmed form is the alias [XXL Engine(Clan)]; the alias [5] is mapped
    to [XXL]. *)
Theorem map_engine_type_clan_xxl :
  (forall value,
      PyDict.contains ENGINE_TYPE_MAP (strip value) = false ->
      map_engine_type value <> Ok "CLAN_XXL") /\
  map_engine_type "Clan XXL Engine" = Ok "XXL" /\
  (forall value,
      map_engine_type value = Ok "CLAN_XXL" <->
      strip value = "XXL Engine(Clan)") /\
  aliases_of ENGINE_TYPE_MAP "CLAN_XXL" = ["XXL Engine(Clan)"] /\
  map_engine_type "5" = Ok "XXL".
Proof.
  split; [exact map_engine_type_fallback_not_clan_xxl|].
  split; [reflexivity|].
  split; [|split; reflexivity].
  intros value. split.
  - intros Hmap.
    destruct (PyDict.contains ENGINE_TYPE_MAP (strip value)) eqn:Hkey.
    + pose proof (DictFacts.getitem_guarded _ _ Hkey) as [token [Hget Hin]].
      unfold map_engine_type in Hmap. cbv zeta in Hmap.
      rewrite Hkey, Hget in Hmap. injection Hmap as ->.
      apply In_aliases_of in Hin. vm_compute in Hin.
      destruct Hin as [Heq | []]. symmetry. exact Heq.
    + exfalso. exact (map_engine_type_fallback_not_clan_xxl value Hkey Hmap).
  - intros Hclean. unfold map_engine_type. cbv zeta. rewrite Hclean.
    reflexivity.
Qed.

Lemma map_engine_type_clan_xxl_witness :
  PyDict.contains ENGINE_TYPE_MAP (strip "Clan XXL Engine") = false /\
  map_engine_type "Clan XXL Engine" <> Ok "CLAN_XXL".
Proof.
  split; [reflexivity|].
  apply (proj1 map_engine_type_clan_xxl "Clan XXL Engine"). reflexivity.
Defined.

(** * Further properties of the conversion helpers *)

Local Open Scope string_scope.

(** ** Facts about the string methods *)

(** Every character of [s] passes the test [P]. *)
Fixpoint all_chars (P : ascii -> bool) (s : string) : bool :=
  match s with
  | EmptyString => true
  | String c r => (P c && all_chars P r)%bool
  end.

Module StrFacts.

Lemma all_chars_app (P : ascii -> bool) (s t : string) :
  all_chars P (s ++ t) = (all_chars P s && all_chars P t)%bool.
Proof.
  induction s as [|c r IH]; simpl; [reflexivity|].
  rewrite IH. apply andb_assoc.
Qed.

Lemma all_chars_impl (P Q : ascii -> bool) (s : string) :
  (forall c, P c = true -> Q c = true) ->
  all_chars P s = true -> all_chars Q s = true.
Proof.
  intros HPQ. induction s as [|c r IH]; simpl; [reflexivity|].
  intros H. apply andb_true_iff in H as [Hc Hr].
  apply andb_true_iff. split; auto.
Qed.

Lemma all_chars_map_chars (P : ascii -> bool) (f : ascii -> ascii) (s : string) :
  (forall c, P (f c) = true) -> all_chars P (map_chars f s) = true.
Proof.
  intros Hf. induction s as [|c r IH]; simpl; [reflexivity|].
  now rewrite Hf, IH.
Qed.

Lemma map_chars_fixed (P : ascii -> bool) (f : ascii -> ascii) (s : string) :
  (forall c, P c = true -> f c = c) ->
  all_chars P s = true -> map_chars f s = s.
Proof.
  intros Hf. induction s as [|c r IH]; simpl; [reflexivity|].
  intros H. apply andb_true_iff in H as [Hc Hr].
  now rewrite (Hf c Hc), (IH Hr).
Qed.

(** *** [startswith] and [in] *)

Lemma startswith_refl (s : string) : startswith s s = true.
Proof.
  induction s as [|c r IH]; simpl; [reflexivity|].
  now rewrite Ascii.eqb_refl, IH.
Qed.

Lemma startswith_trans (a b c : string) :
  startswith a b = true -> startswith b c = true -> startswith a c = true.
Proof.
  revert b c. induction a as [|x a IH]; intros b c; [reflexivity|].
  destruct b as [|y b]; [discriminate|].
  destruct c as [|z c]; [discriminate|].
  cbn [startswith]. intros Hab Hbc.
  apply andb_true_iff in Hab as [Hxy Hab].
  apply andb_true_iff in Hbc as [Hyz Hbc].
  apply Ascii.eqb_eq in Hxy. apply Ascii.eqb_eq in Hyz. subst.
  rewrite Ascii.eqb_refl. simpl. eapply IH; eassumption.
Qed.

Lemma startswith_app (a rest : string) : startswith a (a ++ rest) = true.
Proof.
  induction a as [|x a IH]; simpl; [reflexivity|].
  now rewrite Ascii.eqb_refl, IH.
Qed.

Lemma startswith_split (a s : string) :
  startswith a s = true -> exists rest, s = a ++ rest.
Proof.
  revert s. induction a as [|x a IH]; intros s; [exists s; reflexivity|].
  destruct s as [|y s]; [discriminate|]. cbn [startswith].
  intros H. apply andb_true_iff in H as [Hxy H].
  apply Ascii.eqb_eq in Hxy. subst y.
  destruct (IH s H) as [rest ->]. exists rest. reflexivity.
Qed.

Lemma contains_cons (sub : string) (c : ascii) (s : string) :
  contains sub s = true -> contains sub (String c s) = true.
Proof.
  intros H. cbn [contains]. rewrite H. apply orb_true_r.
Qed.

Lemma contains_empty (s : string) : contains "" s = true.
Proof. destruct s; reflexivity. Qed.

(** A string that contains [sub] contains every prefix of [sub]. *)
Lemma contains_prefix (pre sub s : string) :
  startswith pre sub = true ->
  contains sub s = true -> contains pre s = true.
Proof.
  intros Hpre. induction s as [|c r IH]; cbn [contains]; intros H.
  - rewrite orb_false_r in H |- *. eapply startswith_trans; eassumption.
  - apply orb_true_iff in H as [H|H]; apply orb_true_iff.
    + left. eapply startswith_trans; eassumption.
    + right. auto.
Qed.

(** A string contains whatever one of its prefixes contains. *)
Lemma contains_of_prefix (sub pre s : string) :
  startswith pre s = true ->
  contains sub pre = true -> contains sub s = true.
Proof.
  revert s. induction pre as [|c pre IH]; intros s Hpre H.
  - cbn in H. rewrite orb_false_r in H.
    destruct sub; [apply contains_empty | discriminate].
  - destruct s as [|d s]; [discriminate|]. cbn [startswith] in Hpre.
    apply andb_true_iff in Hpre as [Hcd Hpre].
    apply Ascii.eqb_eq in Hcd. subst d.
    cbn [contains] in H |- *.
    apply orb_true_iff in H as [H|H]; apply orb_true_iff.
    + left. eapply startswith_trans; [exact H|].
      cbn [startswith]. now rewrite Ascii.eqb_refl, Hpre.
    + right. eapply IH; eassumption.
Qed.

(** A string without the first character of [sub] does not contain
    [sub]. *)
Lemma contains_first_char (a : ascii) (sub s : string) :
  all_chars (fun c => negb (Ascii.eqb a c)) s = true ->
  contains (String a sub) s = false.
Proof.
  induction s as [|c r IH]; [reflexivity|]. cbn [all_chars contains startswith].
  intros H. apply andb_true_iff in H as [Hc Hr].
  apply negb_true_iff in Hc. rewrite Hc, (IH Hr). reflexivity.
Qed.

Lemma app_empty_r (s : string) : s ++ "" = s.
Proof. induction s as [|c r IH]; simpl; [reflexivity | now rewrite IH]. Qed.

Lemma app_assoc (s t u : string) : (s ++ t) ++ u = s ++ t ++ u.
Proof. induction s as [|c r IH]; simpl; [reflexivity | now rewrite IH]. Qed.

End StrFacts.

Module StripFacts.

Section Strip.

Variable p : ascii -> bool.

Lemma lstrip_head (s : string) (c : ascii) (t : string) :
  lstrip_by p s = String c t -> p c = false.
Proof.
  induction s as [|d r IH]; cbn [lstrip_by]; [discriminate|].
  destruct (p d) eqn:Hd; [exact IH|].
  intros [= -> _]. exact Hd.
Qed.

Lemma lstrip_all (l t : string) :
  all_chars p l = true -> lstrip_by p (l ++ t) = lstrip_by p t.
Proof.
  induction l as [|c l IH]; cbn; [reflexivity|].
  intros H. apply andb_true_iff in H as [Hc Hl]. now rewrite Hc, IH.
Qed.

Lemma rstrip_all (r : string) : all_chars p r = true -> rstrip_by p r = "".
Proof.
  induction r as [|c r IH]; cbn; [reflexivity|].
  intros H. apply andb_true_iff in H as [Hc Hr]. now rewrite (IH Hr), Hc.
Qed.

Lemma rstrip_app (t r : string) :
  all_chars p r = true -> rstrip_by p (t ++ r) = rstrip_by p t.
Proof.
  intros Hr. induction t as [|c t IH]; cbn [append rstrip_by].
  - now apply rstrip_all.
  - now rewrite IH.
Qed.

Lemma rstrip_keeps_head (c : ascii) (r : string) :
  p c = false -> rstrip_by p (String c r) = String c (rstrip_by p r).
Proof. intros Hc. cbn. now rewrite Hc, andb_false_r. Qed.

Lemma rstrip_idempotent (s : string) :
  rstrip_by p (rstrip_by p s) = rstrip_by p s.
Proof.
  induction s as [|c r IH]; cbn [rstrip_by]; [reflexivity|]. cbv zeta.
  destruct (is_empty (rstrip_by p r) && p c)%bool eqn:E; [reflexivity|].
  cbn [rstrip_by]. cbv zeta. now rewrite IH, E.
Qed.

Lemma rstrip_last (s t : string) (c : ascii) :
  rstrip_by p s = t ++ String c "" -> p c = false.
Proof.
  revert t. induction s as [|d r IH]; intros t; cbn [rstrip_by]; cbv zeta.
  - destruct t; discriminate.
  - destruct (is_empty (rstrip_by p r) && p d)%bool eqn:E.
    + destruct t; discriminate.
    + destruct t as [|e t]; cbn [append].
      * intros [= -> Hr]. rewrite Hr in E. exact E.
      * intros [= _ Hr]. eapply IH, Hr.
Qed.

Lemma rstrip_is_prefix (s : string) : startswith (rstrip_by p s) s = true.
Proof.
  induction s as [|c r IH]; cbn [rstrip_by]; cbv zeta; [reflexivity|].
  destruct (is_empty (rstrip_by p r) && p c)%bool; [reflexivity|].
  cbn [startswith]. now rewrite Ascii.eqb_refl, IH.
Qed.

Lemma strip_pad (l s r : string) :
  all_chars p l = true -> all_chars p r = true ->
  strip_by p (l ++ s ++ r) = strip_by p s.
Proof.
  intros Hl Hr. unfold strip_by. rewrite (lstrip_all _ _ Hl).
  induction s as [|c s IH]; cbn [append lstrip_by].
  - rewrite <- (StrFacts.app_empty_r r) at 1.
    rewrite (lstrip_all _ _ Hr). reflexivity.
  - destruct (p c); [exact IH|].
    change (String c (s ++ r)) with (String c s ++ r).
    now apply rstrip_app.
Qed.

Lemma strip_head (s : string) (c : ascii) (t : string) :
  strip_by p s = String c t -> p c = false.
Proof.
  unfold strip_by. destruct (lstrip_by p s) as [|d r] eqn:E; [discriminate|].
  pose proof (lstrip_head _ _ _ E) as Hd.
  rewrite (rstrip_keeps_head _ _ Hd). intros [= -> _]. exact Hd.
Qed.

Lemma strip_last (s t : string) (c : ascii) :
  strip_by p s = t ++ String c "" -> p c = false.
Proof. unfold strip_by. apply rstrip_last. Qed.

Lemma strip_idempotent (s : string) :
  strip_by p (strip_by p s) = strip_by p s.
Proof.
  unfold strip_by. destruct (lstrip_by p s) as [|d r] eqn:E; [reflexivity|].
  pose proof (lstrip_head _ _ _ E) as Hd.
  rewrite (rstrip_keeps_head _ _ Hd). cbn [lstrip_by]. rewrite Hd.
  rewrite <- (rstrip_keeps_head _ _ Hd). apply rstrip_idempotent.
Qed.

Lemma contains_lstrip (sub s : string) :
  contains sub (lstrip_by p s) = true -> contains sub s = true.
Proof.
  induction s as [|c r IH]; cbn [lstrip_by]; [trivial|].
  destruct (p c); [|trivial].
  intros H. apply StrFacts.contains_cons. auto.
Qed.

Lemma contains_strip (sub s : string) :
  contains sub (strip_by p s) = true -> contains sub s = true.
Proof.
  unfold strip_by. intros H. apply contains_lstrip.
  eapply StrFacts.contains_of_prefix; [apply rstrip_is_prefix | exact H].
Qed.

Lemma all_chars_strip (P : ascii -> bool) (s : string) :
  all_chars P s = true -> all_chars P (strip_by p s) = true.
Proof.
  unfold strip_by. intros H.
  assert (Hl : all_chars P (lstrip_by p s) = true).
  { induction s as [|c r IH]; cbn [lstrip_by]; [reflexivity|].
    destruct (p c); [|exact H].
    cbn in H. apply andb_true_iff in H as [_ H]. auto. }
  clear H. induction (lstrip_by p s) as [|c r IH]; cbn [rstrip_by];
    cbv zeta; [reflexivity|].
  cbn in Hl. apply andb_true_iff in Hl as [Hc Hr].
  destruct (is_empty (rstrip_by p r) && p c)%bool; [reflexivity|].
  cbn. now rewrite Hc, IH.
Qed.

End Strip.

End StripFacts.

Module ReplaceFacts.

(** The characters of a replacement result come from the input or from
    the replacement text. *)
Lemma all_chars_replace_from
  (P : ascii -> bool) (old new : string) (k : nat) (s : string) :
  all_chars P new = true -> all_chars P s = true ->
  all_chars P (replace_from old new k s) = true.
Proof.
  intros Hnew. revert k. induction s as [|c r IH]; intros k Hs.
  - cbn. destruct (is_empty old); [exact Hnew | reflexivity].
  - cbn in Hs. apply andb_true_iff in Hs as [Hc Hr].
    cbn [replace_from]. destruct k as [|k]; [|auto].
    destruct (startswith old (String c r)).
    + rewrite StrFacts.all_chars_app, Hnew. cbn [andb].
      destruct (is_empty old); [|now apply IH].
      cbn [all_chars]. rewrite Hc. now apply IH.
    + cbn [all_chars]. rewrite Hc. now apply IH.
Qed.

Lemma all_chars_replace (P : ascii -> bool) (old new s : string) :
  all_chars P new = true -> all_chars P s = true ->
  all_chars P (replace old new s) = true.
Proof. apply all_chars_replace_from. Qed.

(** Replacing the one-character string [d] leaves no [d] behind, unless
    the replacement text brings one. *)
Lemma replace_char_removes (P : ascii -> bool) (d : ascii) (new s : string) :
  all_chars P s = true ->
  all_chars (fun c => P c && negb (Ascii.eqb d c))%bool new = true ->
  all_chars (fun c => P c && negb (Ascii.eqb d c))%bool
    (replace (String d "") new s) = true.
Proof.
  intros Hs Hnew. unfold replace.
  induction s as [|c r IH]; [reflexivity|].
  cbn in Hs. apply andb_true_iff in Hs as [Hc Hr].
  cbn [replace_from startswith is_empty String.length Nat.sub].
  rewrite andb_true_r. destruct (Ascii.eqb d c) eqn:E.
  - rewrite StrFacts.all_chars_app, Hnew. cbn [andb]. now apply IH.
  - cbn [all_chars]. rewrite Hc, E. cbn [andb negb]. now apply IH.
Qed.

(** Nothing is replaced in a string that lacks the first character of
    [old]. *)
Lemma replace_absent (a : ascii) (old new s : string) :
  all_chars (fun c => negb (Ascii.eqb a c)) s = true ->
  replace (String a old) new s = s.
Proof.
  unfold replace. induction s as [|c r IH]; [reflexivity|].
  cbn [all_chars replace_from startswith]. intros H.
  apply andb_true_iff in H as [Hc Hr]. apply negb_true_iff in Hc.
  rewrite Hc. cbn. now rewrite IH.
Qed.

End ReplaceFacts.

(** ** The folder names *)

Definition era_folders : PyDict.dict :=
  [ ("EARLY_SPACEFLIGHT", "0-early-spaceflight")
  ; ("AGE_OF_WAR", "1-age-of-war")
  ; ("STAR_LEAGUE", "2-star-league")
  ; ("SUCCESSION_WARS", "3-succession-wars")
  ; ("CLAN_INVASION", "4-clan-invasion")
  ; ("CIVIL_WAR", "5-civil-war")
  ; ("DARK_AGE", "6-dark-age")
  ; ("ILCLAN", "7-ilclan")
  ].

Definition get_era_folder_name (era : string) : string :=
  PyDict.get era_folders era "99-unknown".

Definition rules_folders : PyDict.dict :=
  [ ("INTRODUCTORY", "introductory")
  ; ("STANDARD", "standard")
  ; ("ADVANCED", "advanced")
  ; ("EXPERIMENTAL", "experimental")
  ].

Definition get_rules_level_folder_name (rules_level : string) : string :=
  PyDict.get rules_folders rules_level "standard".

(** ** Properties of the mapping functions beyond their range *)

(** [f] gives the same result when white space is put around its
    input. *)
Definition ignores_padding (f : mapper) : Prop :=
  forall left value right,
    all_chars isspace left = true ->
    all_chars isspace right = true ->
    f (left ++ value ++ right) = f value.

(** [f] maps every key of [table] to the token the table binds it to. *)
Definition honours_table (f : mapper) (table : PyDict.dict) : Prop :=
  forall key token, In (key, token) table -> f key = Ok token.

Definition maps_each_key (f : mapper) (table : PyDict.dict) : bool :=
  forallb (fun kv => result_eqb (f (fst kv)) (Ok (snd kv))) table.

Lemma maps_each_key_honours (f : mapper) (table : PyDict.dict) :
  maps_each_key f table = true -> honours_table f table.
Proof.
  unfold maps_each_key. rewrite forallb_forall.
  intros H key token Hin. apply result_eqb_eq. exact (H _ Hin).
Qed.

Ltac by_strip_pad :=
  intros left value right Hleft Hright;
  match goal with
  | |- ?f _ = ?f _ => unfold f
  end;
  cbv zeta; unfold strip;
  rewrite (StripFacts.strip_pad isspace _ value _ Hleft Hright);
  reflexivity.

(** X1: white space around the input, of any kind [strip] removes, never
    changes the result of a category mapping function. *)
Theorem mapping_functions_ignore_padding :
  ignores_padding map_tech_base /\
  ignores_padding map_rules_level /\
  ignores_padding map_engine_type /\
  ignores_padding map_gyro_type /\
  ignores_padding map_cockpit_type /\
  ignores_padding map_structure_type /\
  ignores_padding map_armor_type /\
  ignores_padding map_heat_sink_type /\
  ignores_padding map_mech_location /\
  ignores_padding map_mech_config /\
  ignores_padding map_unit_type.
Proof. repeat split; by_strip_pad. Qed.

Lemma mapping_functions_ignore_padding_witness :
  map_engine_type ("  " ++ "Clan XL Engine" ++ String (ascii_of_nat 10) " ")
  = map_engine_type "Clan XL Engine".
Proof.
  destruct mapping_functions_ignore_padding as (_ & _ & Hengine & _).
  apply Hengine; reflexivity.
Defined.

(** X2: every key written in an alias table is mapped to the token the
    table gives it; no key is out of reach of the trimmed, exact lookup.
    The keys of the armor-location table reach their token through the
    second lookup of [map_mech_location]. *)
Theorem mapping_functions_honour_tables :
  honours_table map_tech_base TECH_BASE_MAP /\
  honours_table map_rules_level RULES_LEVEL_MAP /\
  honours_table map_engine_type ENGINE_TYPE_MAP /\
  honours_table map_gyro_type GYRO_TYPE_MAP /\
  honours_table map_cockpit_type COCKPIT_TYPE_MAP /\
  honours_table map_structure_type STRUCTURE_TYPE_MAP /\
  honours_table map_armor_type ARMOR_TYPE_MAP /\
  honours_table map_heat_sink_type HEAT_SINK_TYPE_MAP /\
  honours_table map_mech_location MECH_LOCATION_MAP /\
  honours_table map_mech_location ARMOR_LOCATION_KEY_MAP /\
  honours_table map_mech_config MECH_CONFIG_MAP /\
  honours_table map_unit_type UNIT_TYPE_MAP.
Proof.
  repeat split; apply maps_each_key_honours; vm_compute; reflexivity.
Qed.

Lemma mapping_functions_honour_tables_witness :
  map_engine_type "XL Engine" = Ok "XL" /\
  map_engine_type "XL Engine(IS)" = Ok "XL".
Proof.
  destruct mapping_functions_honour_tables as (_ & _ & Hengine & _).
  split; apply Hengine; simpl; tauto.
Defined.

(** The two location tables never disagree: a key of the first table
    whose lower-cased form is a key of the second has the same token in
    both. *)
Definition location_tables_agree : bool :=
  forallb
    (fun kv =>
       match PyDict.lookup ARMOR_LOCATION_KEY_MAP (lower (fst kv)) with
       | Some token => String.eqb (snd kv) token
       | None => true
       end)
    MECH_LOCATION_MAP.

(** X3: the armor-location keys are matched without regard to letter
    case: whenever the lower-cased trimmed input is a key of
    [ARMOR_LOCATION_KEY_MAP], [map_mech_location] returns the token of
    that key, also when the first table answers. *)
Theorem map_mech_location_armor_keys_any_case (value token : string) :
  PyDict.lookup ARMOR_LOCATION_KEY_MAP (lower (strip value)) = Some token ->
  map_mech_location value = Ok token.
Proof.
  intros Harmor. unfold map_mech_location. cbv zeta.
  destruct (PyDict.contains MECH_LOCATION_MAP (strip value)) eqn:Hkey.
  - destruct (DictFacts.getitem_guarded _ _ Hkey) as [v [Hget Hin]].
    rewrite Hget. f_equal.
    assert (Hagree : location_tables_agree = true) by (vm_compute; reflexivity).
    unfold location_tables_agree in Hagree. rewrite forallb_forall in Hagree.
    specialize (Hagree _ Hin). cbn [fst snd] in Hagree.
    rewrite Harmor in Hagree. now apply String.eqb_eq in Hagree.
  - unfold PyDict.contains, PyDict.getitem. now rewrite Harmor.
Qed.

Lemma map_mech_location_armor_keys_any_case_witness :
  map_mech_location " Rtl ARMOR" = Ok "LEFT_TORSO_REAR" /\
  map_mech_location "rT" = Ok "RIGHT_TORSO".
Proof.
  split.
  - apply (map_mech_location_armor_keys_any_case " Rtl ARMOR"). reflexivity.
  - apply (map_mech_location_armor_keys_any_case "rT"). reflexivity.
Defined.

Lemma first_digit_level_none (clean : string) :
  all_chars (fun c => negb (isdigit c)) clean = true ->
  first_digit_level clean = None.
Proof.
  induction clean as [|c r IH]; cbn [all_chars first_digit_level];
    [reflexivity|].
  intros H. apply andb_true_iff in H as [Hc Hr].
  apply negb_true_iff in Hc. rewrite Hc. auto.
Qed.

Lemma first_digit_level_found (before : string) (digit : ascii) (rest : string) :
  all_chars (fun c => negb (isdigit c)) before = true ->
  isdigit digit = true ->
  first_digit_level (before ++ String digit rest)
  = Some (PyDict.get RULES_LEVEL_MAP (String digit "") "STANDARD").
Proof.
  intros Hbefore Hdigit.
  induction before as [|c r IH]; cbn [append first_digit_level].
  - now rewrite Hdigit.
  - cbn in Hbefore. apply andb_true_iff in Hbefore as [Hc Hr].
    apply negb_true_iff in Hc. rewrite Hc. auto.
Qed.

(** A character of the ASCII range, where the digits of [str.isdigit]
    are the ten characters 0 to 9. *)
Definition is_ascii (c : ascii) : bool := N.ltb (code c) 128.

(** X4: for an input of ASCII characters whose trimmed form is no key of
    [RULES_LEVEL_MAP], only the first digit counts: without any digit the
    level is [STANDARD]; otherwise the level is the one the table gives
    the first digit, and [STANDARD] for the digits 5 to 9, whatever
    follows. *)
Theorem map_rules_level_first_digit_decides :
  (forall value,
      all_chars is_ascii value = true ->
      PyDict.contains RULES_LEVEL_MAP (strip value) = false ->
      all_chars (fun c => negb (isdigit c)) (strip value) = true ->
      map_rules_level value = Ok "STANDARD") /\
  (forall value before digit rest,
      all_chars is_ascii value = true ->
      PyDict.contains RULES_LEVEL_MAP (strip value) = false ->
      strip value = before ++ String digit rest ->
      all_chars (fun c => negb (isdigit c)) before = true ->
      isdigit digit = true ->
      map_rules_level value
      = Ok (PyDict.get RULES_LEVEL_MAP (String digit "") "STANDARD") /\
      (between 53 57 digit = true -> map_rules_level value = Ok "STANDARD")).
Proof.
  split.
  - intros value _ Hkey Hnone. unfold map_rules_level. cbv zeta.
    now rewrite Hkey, (first_digit_level_none _ Hnone).
  - intros value before digit rest _ Hkey Hclean Hbefore Hdigit.
    assert (Hmap : map_rules_level value
                   = Ok (PyDict.get RULES_LEVEL_MAP (String digit "") "STANDARD")).
    { unfold map_rules_level. cbv zeta. rewrite Hkey, Hclean.
      now rewrite (first_digit_level_found _ _ _ Hbefore Hdigit). }
    split; [exact Hmap|].
    intros Hhigh. rewrite Hmap. f_equal. clear - Hhigh.
    destruct digit as [[] [] [] [] [] [] [] []]; try discriminate Hhigh;
      reflexivity.
Qed.

Lemma map_rules_level_first_digit_decides_witness :
  map_rules_level "Tech Level" = Ok "STANDARD" /\
  map_rules_level "Level 3 of 4" = Ok "EXPERIMENTAL" /\
  map_rules_level "TL 7" = Ok "STANDARD".
Proof.
  split; [|split].
  - apply (proj1 map_rules_level_first_digit_decides "Tech Level");
      reflexivity.
  - apply (proj2 map_rules_level_first_digit_decides
             "Level 3 of 4" "Level " "3"%char " of 4"); reflexivity.
  - apply (proj2 map_rules_level_first_digit_decides
             "TL 7" "TL " "7"%char ""); reflexivity.
Defined.

(** ** Folder names *)

Definition ERA_FOLDERS : list string :=
  ["0-early-spaceflight"; "1-age-of-war"; "2-star-league";
   "3-succession-wars"; "4-clan-invasion"; "5-civil-war"; "6-dark-age";
   "7-ilclan"].

(** X5: the folder of the era of a year is never the folder of unknown
    eras, and the folder names sort as the years do: a later year never
    gets a folder that sorts before the folder of an earlier year. *)
Theorem era_folders_are_chronological :
  (forall year,
      In (get_era_folder_name (map_year_to_era year)) ERA_FOLDERS /\
      get_era_folder_name (map_year_to_era year) <> "99-unknown") /\
  (forall year1 year2,
      (year1 <= year2)%Z ->
      String.leb (get_era_folder_name (map_year_to_era year1))
                 (get_era_folder_name (map_year_to_era year2)) = true).
Proof.
  split.
  - intros year. unfold map_year_to_era.
    repeat match goal with
           | |- context [(year <? ?t)%Z] => destruct (year <? t)%Z
           end;
      (split; [in_enum | discriminate]).
  - intros year1 year2 Hle. unfold map_year_to_era.
    repeat match goal with
           | |- context [(year1 <? ?t)%Z] => destruct (Z.ltb_spec year1 t)
           end;
      repeat match goal with
             | |- context [(year2 <? ?t)%Z] => destruct (Z.ltb_spec year2 t)
             end;
      first [reflexivity | exfalso; lia].
Qed.

Lemma era_folders_are_chronological_witness :
  String.leb (get_era_folder_name (map_year_to_era 2750))
             (get_era_folder_name (map_year_to_era 3055)) = true.
Proof.
  apply (proj2 era_folders_are_chronological 2750%Z 3055%Z). lia.
Defined.

(** X6: a string gets the folder [99-unknown] exactly when it is not one
    of the eight era tokens, and two strings with the same folder, one of
    them an era token, are the same era. *)
Theorem get_era_folder_name_separates_eras :
  (forall era,
      get_era_folder_name era = "99-unknown" <-> ~ In era ERA_ENUM) /\
  (forall era1 era2,
      In era1 ERA_ENUM ->
      get_era_folder_name era1 = get_era_folder_name era2 ->
      era1 = era2).
Proof.
  assert (Hknown : forall era, In era ERA_ENUM ->
            exists folder, In (era, folder) era_folders /\
                           get_era_folder_name era = folder /\
                           folder <> "99-unknown").
  { intros era Hin. simpl in Hin.
    repeat (destruct Hin as [<- | Hin];
            [eexists; split; [|split; [reflexivity | discriminate]];
             simpl; tauto|]).
    destruct Hin. }
  assert (Hunknown : forall era, ~ In era ERA_ENUM ->
            get_era_folder_name era = "99-unknown").
  { intros era Hout. unfold get_era_folder_name, PyDict.get.
    destruct (PyDict.lookup era_folders era) as [folder|] eqn:E;
      [|reflexivity].
    exfalso. apply Hout. apply DictFacts.lookup_In in E.
    simpl in E. simpl.
    repeat (destruct E as [E | E]; [injection E as <- _; tauto|]).
    destruct E. }
  assert (Hdec : forall era, In era ERA_ENUM \/ ~ In era ERA_ENUM).
  { intros era. destruct (in_dec string_dec era ERA_ENUM); tauto. }
  split.
  - intros era. split.
    + intros Hfolder Hin.
      destruct (Hknown era Hin) as [folder [_ [Heq Hne]]]. congruence.
    + apply Hunknown.
  - intros era1 era2 Hin1 Heq.
    destruct (Hknown era1 Hin1) as [folder1 [Hin1' [Heq1 Hne1]]].
    destruct (Hdec era2) as [Hin2 | Hout2].
    + clear Hin1' Heq1 Hne1 folder1 Hknown Hunknown Hdec.
      simpl in Hin1, Hin2.
      repeat (destruct Hin1 as [<- | Hin1];
              [repeat (destruct Hin2 as [<- | Hin2];
                       [first [reflexivity | discriminate Heq]|]);
               destruct Hin2|]).
      destruct Hin1.
    + rewrite (Hunknown era2 Hout2) in Heq. congruence.
Qed.

Lemma get_era_folder_name_separates_eras_witness :
  get_era_folder_name "JIHAD" = "99-unknown" /\
  (get_era_folder_name "DARK_AGE" = get_era_folder_name "DARK_AGE" ->
   "DARK_AGE" = "DARK_AGE").
Proof.
  split.
  - apply (proj1 get_era_folder_name_separates_eras "JIHAD").
    intros Hin. apply In_mem in Hin. vm_compute in Hin. discriminate.
  - apply (proj2 get_era_folder_name_separates_eras "DARK_AGE" "DARK_AGE").
    simpl. tauto.
Defined.

(** X7: the folder of a rules level that [map_rules_level] returns is one
    of four names, and [standard] is the folder of both [STANDARD] and
    [UNOFFICIAL]: the unofficial level has no folder of its own. *)
Theorem rules_level_folder_of_mapped_level (value level : string) :
  map_rules_level value = Ok level ->
  In (get_rules_level_folder_name level)
     ["introductory"; "standard"; "advanced"; "experimental"] /\
  (get_rules_level_folder_name level = "standard" <->
   level = "STANDARD" \/ level = "UNOFFICIAL").
Proof.
  intros Hmap.
  destruct (map_rules_level_range value) as [level' [Hmap' Hin]].
  rewrite Hmap in Hmap'. injection Hmap' as <-.
  simpl in Hin.
  repeat (destruct Hin as [<- | Hin];
          [split; [in_enum|];
           split; [intros H; first [discriminate H | tauto]
                  |intros [H|H]; first [discriminate H | reflexivity]]|]).
  destruct Hin.
Qed.

Lemma rules_level_folder_of_mapped_level_witness :
  get_rules_level_folder_name "UNOFFICIAL" = "standard".
Proof.
  apply (rules_level_folder_of_mapped_level "Unofficial" "UNOFFICIAL");
    [reflexivity | right; reflexivity].
Defined.

(** ** Shape of the identifier slugs *)

(** The characters [generate_id_from_name] takes out or turns into a
    dash, and those [normalize_equipment_id] does. *)
Definition GENERATE_ID_REMOVED : string := " /()'" ++ double_quote ++ ".,".
Definition NORMALIZE_ID_REMOVED : string := "/ ()'" ++ double_quote.

(** A character a slug may hold: no upper-case letter and none of the
    characters in [removed]. *)
Definition slug_char (removed : string) (c : ascii) : bool :=
  (negb (isupper c) && negb (char_in c removed))%bool.

Module SlugFacts.

Lemma lower_char_not_upper (c : ascii) : negb (isupper (lower_char c)) = true.
Proof. destruct c as [[] [] [] [] [] [] [] []]; reflexivity. Qed.

Lemma lower_fixed (s : string) :
  all_chars (fun c => negb (isupper c)) s = true -> lower s = s.
Proof.
  apply StrFacts.map_chars_fixed. intros c Hc. unfold lower_char.
  apply negb_true_iff in Hc. now rewrite Hc.
Qed.

Lemma all_chars_collapse_dashes (P : ascii -> bool) (s : string) :
  P "-"%char = true ->
  all_chars P s = true -> all_chars P (collapse_dashes s) = true.
Proof.
  intros Hdash. funelim (collapse_dashes s); [|trivial].
  intros Hs.
  match goal with
  | IH : forall (Q : ascii -> bool) (t : string), _ |- _ =>
      apply (IH P _ Hdash eq_refl eq_refl)
  end.
  apply ReplaceFacts.all_chars_replace; [|exact Hs].
  cbn. now rewrite Hdash.
Qed.

Lemma collapse_dashes_fixed (s : string) :
  contains "--" s = false -> collapse_dashes s = s.
Proof.
  funelim (collapse_dashes s); [|reflexivity].
  intros Hnone. congruence.
Qed.

Lemma slug_char_excludes (removed : string) (c d : ascii) :
  char_in d removed = true ->
  slug_char removed c = true -> negb (Ascii.eqb d c) = true.
Proof.
  intros Hd Hc. unfold slug_char in Hc.
  apply andb_true_iff in Hc as [_ Hc]. apply negb_true_iff in Hc.
  destruct (Ascii.eqb d c) eqn:E; [|reflexivity].
  apply Ascii.eqb_eq in E. subst. congruence.
Qed.

Lemma slug_char_lower (removed : string) (c : ascii) :
  slug_char removed c = true -> negb (isupper c) = true.
Proof. unfold slug_char. intros H. now apply andb_true_iff in H as [H _]. Qed.

(** The tail both slug functions share: collapse the dashes, strip them
    at both ends. *)
Lemma finish_keeps_chars (P : ascii -> bool) (s : string) :
  P "-"%char = true ->
  all_chars P s = true ->
  all_chars P (strip_chars "-" (collapse_dashes s)) = true.
Proof.
  intros Hdash Hs. unfold strip_chars.
  now apply StripFacts.all_chars_strip, all_chars_collapse_dashes.
Qed.

Lemma finish_dashes (s : string) :
  let slug := strip_chars "-" (collapse_dashes s) in
  contains "--" slug = false /\
  (forall rest, slug <> "-" ++ rest) /\
  (forall front, slug <> front ++ "-").
Proof.
  cbv zeta. unfold strip_chars. split; [|split].
  - destruct (contains "--" (strip_by _ (collapse_dashes s))) eqn:E;
      [|reflexivity].
    apply StripFacts.contains_strip in E.
    now rewrite collapse_dashes_no_double_dash in E.
  - intros rest H. apply StripFacts.strip_head in H. discriminate.
  - intros front H. apply StripFacts.strip_last in H. discriminate.
Qed.

(** The chain of one-character replacements, from the last one inwards;
    [base] settles the string the chain starts from. *)
Ltac char_replaces base :=
  first [ apply ReplaceFacts.replace_char_removes;
          [char_replaces base | reflexivity]
        | base ].

Lemma generate_id_chars (chassis model : string) :
  all_chars (slug_char GENERATE_ID_REMOVED)
    (generate_id_from_name chassis model) = true.
Proof.
  unfold generate_id_from_name. cbv zeta.
  apply finish_keeps_chars; [reflexivity|].
  eapply StrFacts.all_chars_impl; cycle 1.
  - char_replaces
      ltac:(apply (StrFacts.all_chars_map_chars (fun c => negb (isupper c)));
            exact lower_char_not_upper).
  - intros c. destruct c as [[] [] [] [] [] [] [] []];
      intros H; first [reflexivity | discriminate H].
Qed.

Lemma normalize_id_chars (name : string) :
  all_chars (slug_char NORMALIZE_ID_REMOVED)
    (normalize_equipment_id name) = true.
Proof.
  unfold normalize_equipment_id. cbv zeta.
  apply finish_keeps_chars; [reflexivity|].
  eapply StrFacts.all_chars_impl; cycle 1.
  - char_replaces
      ltac:(repeat (apply (ReplaceFacts.all_chars_replace
                             (fun c => negb (isupper c))); [reflexivity|]);
            apply StrFacts.all_chars_map_chars;
            exact lower_char_not_upper).
  - intros c. destruct c as [[] [] [] [] [] [] [] []];
      intros H; first [reflexivity | discriminate H].
Qed.

End SlugFacts.

(** X8: a slug holds no upper-case letter and none of the characters the
    function removes: no space, slash, parenthesis, quote, full stop or
    comma in an id from [generate_id_from_name]; no slash, space,
    parenthesis or quote in one from [normalize_equipment_id], which keeps
    full stops and commas. *)
Theorem slugs_hold_no_removed_character :
  (forall chassis model,
      all_chars (slug_char GENERATE_ID_REMOVED)
        (generate_id_from_name chassis model) = true) /\
  (forall name,
      all_chars (slug_char NORMALIZE_ID_REMOVED)
        (normalize_equipment_id name) = true) /\
  normalize_equipment_id "ER P.P.C., (IS)" = "er-p.p.c.,-is".
Proof.
  split; [exact SlugFacts.generate_id_chars|].
  split; [exact SlugFacts.normalize_id_chars|].
  vm_compute. reflexivity.
Qed.

(** X9: a slug of either function has no two dashes in a row, does not
    start with a dash and does not end with one. *)
Theorem slugs_have_single_inner_dashes :
  (forall chassis model,
      contains "--" (generate_id_from_name chassis model) = false /\
      (forall rest, generate_id_from_name chassis model <> "-" ++ rest) /\
      (forall front, generate_id_from_name chassis model <> front ++ "-")) /\
  (forall name,
      contains "--" (normalize_equipment_id name) = false /\
      (forall rest, normalize_equipment_id name <> "-" ++ rest) /\
      (forall front, normalize_equipment_id name <> front ++ "-")).
Proof.
  split; intros; unfold generate_id_from_name, normalize_equipment_id;
    cbv zeta; apply SlugFacts.finish_dashes.
Qed.

(** [normalize_equipment_id] changes nothing in a string that already has
    the shape of its results. *)
Lemma normalize_equipment_id_fixed (slug : string) :
  all_chars (slug_char NORMALIZE_ID_REMOVED) slug = true ->
  contains "--" slug = false ->
  strip_chars "-" slug = slug ->
  normalize_equipment_id slug = slug.
Proof.
  intros Hchars Hdashes Hstrip. unfold normalize_equipment_id. cbv zeta.
  assert (Hnot : forall d, char_in d NORMALIZE_ID_REMOVED = true ->
                   all_chars (fun c => negb (Ascii.eqb d c)) slug = true).
  { intros d Hd. eapply StrFacts.all_chars_impl; [|exact Hchars].
    intros c. now apply SlugFacts.slug_char_excludes. }
  rewrite SlugFacts.lower_fixed
    by (eapply StrFacts.all_chars_impl; [|exact Hchars];
        intros c; apply SlugFacts.slug_char_lower).
  unfold double_quote.
  repeat match goal with
         | |- context [replace (String ?a ?old) ?new slug] =>
             rewrite (ReplaceFacts.replace_absent a old new slug)
               by (apply Hnot; reflexivity)
         end.
  now rewrite SlugFacts.collapse_dashes_fixed.
Qed.

(** X10: [normalize_equipment_id] is idempotent: normalising an id it
    produced gives the same id. *)
Theorem normalize_equipment_id_idempotent (name : string) :
  normalize_equipment_id (normalize_equipment_id name)
  = normalize_equipment_id name.
Proof.
  apply normalize_equipment_id_fixed.
  - apply SlugFacts.normalize_id_chars.
  - unfold normalize_equipment_id. cbv zeta. apply SlugFacts.finish_dashes.
  - unfold normalize_equipment_id. cbv zeta.
    apply StripFacts.strip_idempotent.
Qed.

(** X11: an id made by [generate_id_from_name] is left as it is by
    [normalize_equipment_id]. *)
Theorem normalize_equipment_id_keeps_generated_id (chassis model : string) :
  normalize_equipment_id (generate_id_from_name chassis model)
  = generate_id_from_name chassis model.
Proof.
  apply normalize_equipment_id_fixed.
  - eapply StrFacts.all_chars_impl; [|apply SlugFacts.generate_id_chars].
    intros c. destruct c as [[] [] [] [] [] [] [] []];
      intros H; first [reflexivity | discriminate H].
  - unfold generate_id_from_name. cbv zeta. apply SlugFacts.finish_dashes.
  - unfold generate_id_from_name. cbv zeta.
    apply StripFacts.strip_idempotent.
Qed.

(** * The coverage and analysis scripts *)

(** ** [collections.defaultdict] *)

Module DefaultDict.

Section WithDefault.

Variable V : Type.
Variable default : V.

Definition t : Type := list (string * V).

Fixpoint lookup (d : t) (k : string) : option V :=
  match d with
  | [] => None
  | (k', v) :: rest => if String.eqb k k' then Some v else lookup rest k
  end.

(** Reading [d[k]]: the default for a key never written. *)
Definition get (d : t) (k : string) : V :=
  match lookup d k with Some v => v | None => default end.

(** An in-place change of [d[k]], as [d[k] += 1] or [d[k].append(x)]: a
    key not yet there enters, after the others, with the changed
    default. *)
Fixpoint update (d : t) (k : string) (f : V -> V) : t :=
  match d with
  | [] => [(k, f default)]
  | (k', v) :: rest =>
      if String.eqb k k' then (k', f v) :: rest
      else (k', v) :: update rest k f
  end.

Lemma get_update_same (d : t) (k : string) (f : V -> V) :
  get (update d k f) k = f (get d k).
Proof.
  unfold get. induction d as [|[k' v] rest IH]; cbn.
  - now rewrite String.eqb_refl.
  - destruct (String.eqb k k') eqn:E; cbn; rewrite E; [reflexivity | exact IH].
Qed.

Lemma get_update_other (d : t) (k k' : string) (f : V -> V) :
  k' <> k -> get (update d k f) k' = get d k'.
Proof.
  intros Hne. apply String.eqb_neq in Hne.
  unfold get. induction d as [|[k0 v] rest IH]; cbn.
  - now rewrite Hne.
  - destruct (String.eqb k k0) eqn:E; cbn.
    + apply String.eqb_eq in E. subst k0. now rewrite Hne.
    + destruct (String.eqb k' k0); [reflexivity | exact IH].
Qed.

End WithDefault.

Arguments lookup {V} d k.
Arguments get {V} default d k.
Arguments update {V} default d k f.

End DefaultDict.

(** ** gap_analysis_mapping.py *)

Module GapAnalysis.

Definition mappings : list (string * (string * string)) :=
  [ ("src/stores/useAppSettingsStore.ts", ("COVERED", "app-settings"))
  ; ("src/stores/useThemeStore.ts", ("COVERED", "color-system"))
  ; ("src/stores/useNavigationStore.ts", ("COVERED", "app-navigation"))
  ; ("src/stores/useUnitStore.ts", ("COVERED", "unit-store-architecture"))
  ; ("src/stores/useCustomizerStore.ts", ("COVERED", "customizer-tabs"))
  ; ("src/stores/useCustomizerSettingsStore.ts", ("COVERED", "customizer-responsive-layout"))
  ; ("src/stores/useEquipmentStore.ts", ("COVERED", "equipment-database"))
  ; ("src/stores/useGameplayStore.ts", ("COVERED", "game-state-management"))
  ; ("src/stores/useEncounterStore.ts", ("COVERED", "game-session-management"))
  ; ("src/stores/useQuickGameStore.ts", ("COVERED", "quick-session"))
  ; ("src/stores/useRepairStore.ts", ("COVERED", "repair-maintenance"))
  ; ("src/stores/useAwardStore.ts", ("COVERED", "awards"))
  ; ("src/stores/usePilotStore.ts", ("COVERED", "personnel-management"))
  ; ("src/stores/useForceStore.ts", ("COVERED", "force-management"))
  ; ("src/stores/useMultiUnitStore.ts", ("COVERED", "multi-unit-tabs"))
  ; ("src/stores/useTabManagerStore.ts", ("COVERED", "multi-unit-tabs"))
  ; ("src/stores/useUIBehaviorStore.ts", ("COVERED", "desktop-experience"))
  ; ("src/stores/useAccessibilityStore.ts", ("UNCOVERED", "NO SPEC"))
  ; ("src/stores/useAppearanceStore.ts", ("COVERED", "color-system"))
  ; ("src/stores/useIdentityStore.ts", ("COVERED", "vault-sync"))
  ; ("src/stores/useVehicleStore.ts", ("UNCOVERED", "NO SPEC"))
  ; ("src/stores/useAerospaceStore.ts", ("UNCOVERED", "NO SPEC"))
  ; ("src/stores/useBattleArmorStore.ts", ("UNCOVERED", "NO SPEC"))
  ; ("src/stores/useInfantryStore.ts", ("UNCOVERED", "NO SPEC"))
  ; ("src/stores/useProtoMechStore.ts", ("UNCOVERED", "NO SPEC"))
  ].

(** The loop [for status, spec in mappings.values():
    status_counts[status] += 1] over a [defaultdict(int)]. *)
Definition count_statuses (values : list (string * string))
  : DefaultDict.t nat :=
  fold_left (fun counts entry => DefaultDict.update 0 counts (fst entry) S)
            values [].

Definition status_counts : DefaultDict.t nat :=
  count_statuses (map snd mappings).

(** The two numbers the summary prints. *)
Definition covered (counts : DefaultDict.t nat) : nat :=
  DefaultDict.get 0 counts "COVERED".
Definition uncovered (counts : DefaultDict.t nat) : nat :=
  DefaultDict.get 0 counts "UNCOVERED".

End GapAnalysis.

(** ** full_spec_analysis.py *)

Module FullSpecAnalysis.

Definition categories : list (string * list string) :=
  [ ("CAMPAIGN",
      ["campaign-"; "day-progression"; "faction-standing";
       "mission-contracts"; "contract-types"; "turnover-retention";
       "random-events"; "scenario-generation"; "simulation-system"])
  ; ("GAMEPLAY",
      ["combat-"; "damage-"; "critical-"; "heat-"; "movement-"; "physical-";
       "weapon-"; "armor-"; "fall-"; "shutdown-"; "piloting-"; "indirect-";
       "environmental-"; "secondary-target-"; "to-hit-"; "ecm-"; "quirk-";
       "spa-"])
  ; ("CONSTRUCTION",
      ["engine-"; "gyro-"; "heat-sink-"; "internal-structure-"; "cockpit-";
       "armor-system"; "movement-system"; "construction-"; "equipment-";
       "hardpoint-"; "critical-slot-"; "omnimech-"; "superheavy-"])
  ; ("EQUIPMENT",
      ["weapon-"; "ammunition-"; "electronics-"; "equipment-"; "ammo-"])
  ; ("UI_COMPONENTS",
      ["armor-diagram"; "customizer-"; "equipment-browser"; "equipment-tray";
       "mobile-loadout-tray"; "multi-unit-tabs"; "overview-";
       "unit-info-banner"; "confirmation-dialogs"; "toast-notifications";
       "balanced-grid"; "color-system"; "app-"; "desktop-"; "storybook-"])
  ; ("PERSONNEL",
      ["personnel-"; "medical-"; "awards"; "skills-"; "audit-timeline"])
  ; ("ECONOMY",
      ["financial-"; "markets-"; "acquisition-"; "repair";
       "repair-maintenance"])
  ; ("DATA_MODELS",
      ["core-"; "database-"; "unit-entity-"; "unit-store-";
       "unit-validation-"; "unit-versioning"; "serialization-";
       "persistence-"; "event-store"; "vault-sync"; "data-"])
  ; ("SYSTEM",
      ["formula-registry"; "rules-level-"; "era-temporal-"; "tech-base-";
       "tech-rating-"; "battle-value-"; "weight-class-"; "force-"; "game-";
       "quick-session"; "record-sheet-"; "release-build-"; "mm-data-";
       "mtf-parity-"; "validation-"; "code-formatting-"; "storybook-";
       "hex-coordinate-"; "terrain-"; "starmap-"; "tactical-map-"])
  ].

(** [s.split(sep)] for a separator of one character. *)
Fixpoint split_char (sep : ascii) (s : string) : list string :=
  match s with
  | EmptyString => [EmptyString]
  | String c r =>
      if Ascii.eqb c sep then EmptyString :: split_char sep r
      else match split_char sep r with
           | piece :: pieces => String c piece :: pieces
           | [] => [String c EmptyString]
           end
  end.

(** [is_tbd] and [is_draft] of a spec file's content. *)
Definition is_tbd_content (content : string) : bool :=
  contains "TBD - created by archiving" content.

Definition is_draft_content (content : string) : bool :=
  (contains "Status" content && contains "Draft" content)%bool.

Definition search_patterns (spec_name : string) : list string :=
  [ spec_name
  ; replace "-" "_" spec_name
  ; replace "-" "" spec_name
  ; nth 0 (split_char "-" spec_name) EmptyString ].

(** A file [rglob] finds, as far as the script looks at it: its name and
    the name of its directory. *)
Record src_file : Type := SrcFile { file_name : string; parent_name : string }.

(** The two nested loops that set [found_impl]; each stops at the first
    hit, which [existsb] does as well. *)
Definition find_impl (spec_name : string) (ts_files : list src_file) : bool :=
  existsb
    (fun pattern =>
       existsb
         (fun f => (contains pattern (file_name f)
                    || contains pattern (parent_name f))%bool)
         ts_files)
    (search_patterns spec_name).

(** The loop over [categories.items()], with its [break] at the first
    category one of whose keywords occurs in the name. *)
Fixpoint first_category
  (cats : list (string * list string)) (spec_name : string) : option string :=
  match cats with
  | [] => None
  | (cat, keywords) :: rest =>
      if existsb (fun kw => contains kw spec_name) keywords
      then Some cat
      else first_category rest spec_name
  end.

Definition categorize (spec_name : string) : string :=
  match first_category categories spec_name with
  | Some cat => cat
  | None => "OTHER"
  end.

Record spec_info : Type := SpecInfo
  { is_tbd : bool;
    is_draft : bool;
    found_impl : bool;
    category : string;
    path : string }.

(** The status the first report loop files a spec under. *)
Definition status_of (info : spec_info) : string :=
  if is_tbd info then "TBD"
  else if found_impl info then "IMPLEMENTED"
  else "NOT_IMPLEMENTED".

Record counters : Type := Counters
  { IMPLEMENTED : nat; NOT_IMPLEMENTED : nat; TBD : nat }.

Definition no_counts : counters := Counters 0 0 0.

(** The counter of its category the same loop adds one to. *)
Definition bump (info : spec_info) (c : counters) : counters :=
  if found_impl info
  then Counters (S (IMPLEMENTED c)) (NOT_IMPLEMENTED c) (TBD c)
  else if is_tbd info
  then Counters (IMPLEMENTED c) (NOT_IMPLEMENTED c) (S (TBD c))
  else Counters (IMPLEMENTED c) (S (NOT_IMPLEMENTED c)) (TBD c).

Definition report_state : Type :=
  (DefaultDict.t (list string) * DefaultDict.t counters)%type.

(** One pass of [for spec_name, info in specs.items()]. *)
Definition report_step (state : report_state) (spec : string * spec_info)
  : report_state :=
  let '(by_status, by_category) := state in
  let '(spec_name, info) := spec in
  ( DefaultDict.update [] by_status (status_of info)
      (fun names => (names ++ [spec_name])%list),
    DefaultDict.update no_counts by_category (category info) (bump info) ).

Definition analyse (specs : list (string * spec_info)) : report_state :=
  fold_left report_step specs ([], []).

Definition by_status (specs : list (string * spec_info))
  : DefaultDict.t (list string) := fst (analyse specs).

Definition by_category (specs : list (string * spec_info))
  : DefaultDict.t counters := snd (analyse specs).

(** [len(by_status[status])], as the report prints it. *)
Definition status_total (specs : list (string * spec_info)) (status : string)
  : nat :=
  length (DefaultDict.get [] (by_status specs) status).

(** A counter summed over the categories of the report. *)
Definition category_total
  (field : counters -> nat) (specs : list (string * spec_info)) : nat :=
  fold_right (fun entry acc => field (snd entry) + acc) 0 (by_category specs).

End FullSpecAnalysis.

(** ** Properties of the coverage summary *)

Module GapAnalysisFacts.

Import GapAnalysis.

Definition occurrences (status : string) (values : list (string * string))
  : nat :=
  length (filter (fun entry => String.eqb (fst entry) status) values).

Lemma count_statuses_from
  (values : list (string * string)) (counts : DefaultDict.t nat)
  (status : string) :
  DefaultDict.get 0
    (fold_left (fun counts entry => DefaultDict.update 0 counts (fst entry) S)
               values counts) status
  = DefaultDict.get 0 counts status + occurrences status values.
Proof.
  revert counts. induction values as [|entry rest IH]; intros counts.
  - cbn. lia.
  - cbn [fold_left]. rewrite IH. unfold occurrences. cbn [filter].
    destruct (String.eqb (fst entry) status) eqn:E.
    + apply String.eqb_eq in E. subst status.
      rewrite DefaultDict.get_update_same. cbn [length]. lia.
    + apply String.eqb_neq in E.
      rewrite DefaultDict.get_update_other by congruence. lia.
Qed.

Lemma two_statuses_cover (values : list (string * string)) :
  (forall entry, In entry values ->
                 fst entry = "COVERED" \/ fst entry = "UNCOVERED") ->
  occurrences "COVERED" values + occurrences "UNCOVERED" values
  = length values.
Proof.
  unfold occurrences. induction values as [|entry rest IH]; intros Hall;
    [reflexivity|].
  cbn [filter length].
  assert (Hrest : forall e, In e rest ->
                            fst e = "COVERED" \/ fst e = "UNCOVERED")
    by (intros e He; apply Hall; now right).
  specialize (IH Hrest).
  destruct (Hall entry (or_introl eq_refl)) as [-> | ->]; cbn; lia.
Qed.

End GapAnalysisFacts.

(** X12: when every file is marked [COVERED] or [UNCOVERED], the two
    numbers of the coverage summary add up to the number of files; for
    the table of the script they are 19 and 6, of 25 files. *)
Theorem coverage_summary_accounts_for_every_file :
  (forall values,
      (forall entry, In entry values ->
                     fst entry = "COVERED" \/ fst entry = "UNCOVERED") ->
      GapAnalysis.covered (GapAnalysis.count_statuses values)
      + GapAnalysis.uncovered (GapAnalysis.count_statuses values)
      = length values) /\
  GapAnalysis.covered GapAnalysis.status_counts = 19 /\
  GapAnalysis.uncovered GapAnalysis.status_counts = 6 /\
  length GapAnalysis.mappings = 25.
Proof.
  split; [|repeat split].
  intros values Hall.
  unfold GapAnalysis.covered, GapAnalysis.uncovered,
    GapAnalysis.count_statuses.
  rewrite !GapAnalysisFacts.count_statuses_from. cbn [DefaultDict.get
    DefaultDict.lookup]. cbn [Nat.add].
  now apply GapAnalysisFacts.two_statuses_cover.
Qed.

Lemma coverage_summary_accounts_for_every_file_witness :
  GapAnalysis.covered
    (GapAnalysis.count_statuses
       [("UNCOVERED", "NO SPEC"); ("COVERED", "awards"); ("UNCOVERED", "NO SPEC")])
  + GapAnalysis.uncovered
      (GapAnalysis.count_statuses
         [("UNCOVERED", "NO SPEC"); ("COVERED", "awards"); ("UNCOVERED", "NO SPEC")])
  = 3.
Proof.
  apply (proj1 coverage_summary_accounts_for_every_file
           [("UNCOVERED", "NO SPEC"); ("COVERED", "awards");
            ("UNCOVERED", "NO SPEC")]).
  simpl. intros entry [<- | [<- | [<- | []]]]; simpl; tauto.
Defined.

(** ** Properties of the spec analysis *)

Module FullSpecFacts.

Import FullSpecAnalysis.

Definition first_segment (spec_name : string) : string :=
  nth 0 (split_char "-" spec_name) EmptyString.

Lemma split_char_nonempty (sep : ascii) (s : string) : split_char sep s <> [].
Proof.
  induction s as [|c r IH]; cbn; [discriminate|].
  destruct (Ascii.eqb c sep); [discriminate|].
  destruct (split_char sep r); discriminate.
Qed.

Lemma first_segment_cons (c : ascii) (r : string) :
  first_segment (String c r)
  = if Ascii.eqb c "-" then "" else String c (first_segment r).
Proof.
  unfold first_segment. cbn [split_char].
  destruct (Ascii.eqb c "-"); [reflexivity|].
  pose proof (split_char_nonempty "-" r) as Hne.
  destruct (split_char "-" r); [contradiction | reflexivity].
Qed.

Lemma first_segment_is_prefix (s : string) :
  startswith (first_segment s) s = true.
Proof.
  induction s as [|c r IH]; [reflexivity|]. rewrite first_segment_cons.
  destruct (Ascii.eqb c "-"); [reflexivity|].
  cbn [startswith]. now rewrite Ascii.eqb_refl, IH.
Qed.

Lemma first_segment_prefix_of_replace (new s : string) :
  startswith (first_segment s) (replace "-" new s) = true.
Proof.
  unfold replace. induction s as [|c r IH]; [reflexivity|].
  rewrite first_segment_cons. destruct (Ascii.eqb c "-") eqn:E;
    [reflexivity|].
  cbn [replace_from startswith]. rewrite Ascii.eqb_sym, E.
  cbn [andb startswith]. now rewrite Ascii.eqb_refl, IH.
Qed.

Definition names_hold (pattern : string) (f : src_file) : bool :=
  (contains pattern (file_name f) || contains pattern (parent_name f))%bool.

Lemma names_hold_prefix (pre pattern : string) (f : src_file) :
  startswith pre pattern = true ->
  names_hold pattern f = true -> names_hold pre f = true.
Proof.
  unfold names_hold. intros Hpre H.
  apply orb_true_iff in H as [H|H]; apply orb_true_iff; [left | right];
    eapply StrFacts.contains_prefix; eassumption.
Qed.

Lemma existsb_names_hold_prefix (pre pattern : string) (files : list src_file) :
  startswith pre pattern = true ->
  existsb (names_hold pattern) files = true ->
  existsb (names_hold pre) files = true.
Proof.
  intros Hpre H. apply existsb_exists in H as [f [Hin Hf]].
  apply existsb_exists. exists f. split; [assumption|].
  eapply names_hold_prefix; eassumption.
Qed.

End FullSpecFacts.

(** X13: whether a spec counts as implemented depends on nothing but the
    part of its name before the first dash: [found_impl] is set exactly
    when that part occurs in the name of some file found or in the name
    of its directory. *)
Theorem find_impl_looks_at_first_segment
  (spec_name : string) (ts_files : list FullSpecAnalysis.src_file) :
  FullSpecAnalysis.find_impl spec_name ts_files
  = existsb
      (fun f =>
         (contains (nth 0 (FullSpecAnalysis.split_char "-" spec_name) "")
                   (FullSpecAnalysis.file_name f)
          || contains (nth 0 (FullSpecAnalysis.split_char "-" spec_name) "")
                      (FullSpecAnalysis.parent_name f))%bool)
      ts_files.
Proof.
  unfold FullSpecAnalysis.find_impl, FullSpecAnalysis.search_patterns.
  fold (FullSpecFacts.first_segment spec_name).
  change (fun f : FullSpecAnalysis.src_file =>
            (contains (FullSpecFacts.first_segment spec_name)
                      (FullSpecAnalysis.file_name f)
             || contains (FullSpecFacts.first_segment spec_name)
                         (FullSpecAnalysis.parent_name f))%bool)
    with (FullSpecFacts.names_hold (FullSpecFacts.first_segment spec_name)).
  cbn [existsb].
  change (fun f : FullSpecAnalysis.src_file =>
            (contains ?p (FullSpecAnalysis.file_name f)
             || contains ?p (FullSpecAnalysis.parent_name f))%bool)
    with (FullSpecFacts.names_hold p).
  destruct (existsb (FullSpecFacts.names_hold
                       (FullSpecFacts.first_segment spec_name)) ts_files)
    eqn:Hseg.
  - now rewrite !orb_true_r.
  - rewrite orb_false_r.
    assert (Hnot : forall pattern,
               startswith (FullSpecFacts.first_segment spec_name) pattern = true ->
               existsb (FullSpecFacts.names_hold pattern) ts_files = false).
    { intros pattern Hpre.
      destruct (existsb (FullSpecFacts.names_hold pattern) ts_files) eqn:E;
        [|reflexivity].
      apply (FullSpecFacts.existsb_names_hold_prefix _ _ _ Hpre) in E.
      congruence. }
    rewrite (Hnot spec_name (FullSpecFacts.first_segment_is_prefix _)).
    rewrite (Hnot _ (FullSpecFacts.first_segment_prefix_of_replace "_" spec_name)).
    rewrite (Hnot _ (FullSpecFacts.first_segment_prefix_of_replace "" spec_name)).
    reflexivity.
Qed.

Module CategoryFacts.

Import FullSpecAnalysis.

(** A name that contains the keyword [kw] passes the test of a category
    whose keywords include a prefix of [kw]. *)
Lemma keyword_hit (pre kw : string) (keywords : list string) (name : string) :
  In pre keywords ->
  startswith pre kw = true ->
  contains kw name = true ->
  existsb (fun k => contains k name) keywords = true.
Proof.
  intros Hin Hpre Hkw. apply existsb_exists. exists pre.
  split; [assumption|]. eapply StrFacts.contains_prefix; eassumption.
Qed.

Definition GAMEPLAY_KEYWORDS : list string :=
  ["combat-"; "damage-"; "critical-"; "heat-"; "movement-"; "physical-";
   "weapon-"; "armor-"; "fall-"; "shutdown-"; "piloting-"; "indirect-";
   "environmental-"; "secondary-target-"; "to-hit-"; "ecm-"; "quirk-";
   "spa-"].

(** A name with a keyword that extends a GAMEPLAY keyword is filed under
    CAMPAIGN or GAMEPLAY. *)
Lemma gameplay_first (pre kw name : string) :
  In pre GAMEPLAY_KEYWORDS ->
  startswith pre kw = true ->
  contains kw name = true ->
  categorize name = "CAMPAIGN" \/ categorize name = "GAMEPLAY".
Proof.
  intros Hin Hpre Hkw. unfold categorize, categories.
  cbn [first_category].
  match goal with
  | |- context [if ?b then Some "CAMPAIGN" else _] => destruct b
  end; [now left|].
  fold GAMEPLAY_KEYWORDS.
  rewrite (keyword_hit pre kw GAMEPLAY_KEYWORDS name Hin Hpre Hkw).
  now right.
Qed.

End CategoryFacts.

(** X14: the categories are tried in the order written and the first hit
    wins, so a keyword that extends a keyword of an earlier category never
    decides.  A spec whose name contains [heat-sink-], [armor-system],
    [movement-system] or [critical-slot-] (keywords of CONSTRUCTION) or
    [armor-diagram] (of UI_COMPONENTS) is filed under CAMPAIGN or
    GAMEPLAY; and a spec filed under EQUIPMENT has [ammunition-],
    [electronics-] or [ammo-] in its name, the keywords [weapon-] and
    [equipment-] of that category being taken by GAMEPLAY and
    CONSTRUCTION. *)
Theorem categorize_earlier_category_wins (spec_name : string) :
  (contains "heat-sink-" spec_name = true \/
   contains "armor-system" spec_name = true \/
   contains "movement-system" spec_name = true \/
   contains "critical-slot-" spec_name = true \/
   contains "armor-diagram" spec_name = true ->
   FullSpecAnalysis.categorize spec_name = "CAMPAIGN" \/
   FullSpecAnalysis.categorize spec_name = "GAMEPLAY") /\
  (FullSpecAnalysis.categorize spec_name = "EQUIPMENT" ->
   contains "ammunition-" spec_name = true \/
   contains "electronics-" spec_name = true \/
   contains "ammo-" spec_name = true).
Proof.
  split.
  - intros [H | [H | [H | [H | H]]]].
    + apply (CategoryFacts.gameplay_first "heat-" _ _) in H;
        [exact H | cbn; tauto | reflexivity].
    + apply (CategoryFacts.gameplay_first "armor-" _ _) in H;
        [exact H | cbn; tauto | reflexivity].
    + apply (CategoryFacts.gameplay_first "movement-" _ _) in H;
        [exact H | cbn; tauto | reflexivity].
    + apply (CategoryFacts.gameplay_first "critical-" _ _) in H;
        [exact H | cbn; tauto | reflexivity].
    + apply (CategoryFacts.gameplay_first "armor-" _ _) in H;
        [exact H | cbn; tauto | reflexivity].
  - unfold FullSpecAnalysis.categorize, FullSpecAnalysis.categories.
    cbn [FullSpecAnalysis.first_category existsb].
    destruct (contains "weapon-" spec_name);
      [rewrite ?orb_true_r, ?orb_true_l;
       repeat match goal with
              | |- context [if ?b then _ else _] => destruct b
              end; discriminate|].
    destruct (contains "equipment-" spec_name);
      [rewrite ?orb_true_r, ?orb_true_l;
       repeat match goal with
              | |- context [if ?b then _ else _] => destruct b
              end; discriminate|].
    destruct (contains "ammunition-" spec_name); [tauto|].
    destruct (contains "electronics-" spec_name); [tauto|].
    destruct (contains "ammo-" spec_name); [tauto|].
    cbn [orb].
    repeat match goal with
           | |- context [if ?b then _ else _] => destruct b
           end; intros Heq; discriminate Heq.
Qed.

Lemma categorize_earlier_category_wins_witness :
  FullSpecAnalysis.categorize "heat-sink-system" = "GAMEPLAY" /\
  contains "ammunition-" "ammunition-system" = true.
Proof.
  split.
  - destruct (proj1 (categorize_earlier_category_wins "heat-sink-system"))
      as [H | H];
      [left; reflexivity | vm_compute in H; discriminate H | exact H].
  - destruct (proj2 (categorize_earlier_category_wins "ammunition-system"))
      as [H | [H | H]];
      [reflexivity | exact H | vm_compute in H; discriminate H
      | vm_compute in H; discriminate H].
Defined.

Module ReportFacts.

Import FullSpecAnalysis.

Definition count_if (p : spec_info -> bool) (specs : list (string * spec_info))
  : nat :=
  length (filter (fun spec => p (snd spec)) specs).

Definition has_status (status : string) (info : spec_info) : bool :=
  String.eqb (status_of info) status.

Definition listed (status : string) (state : report_state) : nat :=
  length (DefaultDict.get [] (fst state) status).

Definition summed (field : counters -> nat) (state : report_state) : nat :=
  fold_right (fun entry acc => field (snd entry) + acc) 0 (snd state).

Lemma listed_step (status : string) (state : report_state)
  (spec : string * spec_info) :
  listed status (report_step state spec)
  = listed status state + (if has_status status (snd spec) then 1 else 0).
Proof.
  destruct state as [bs bc], spec as [name info]. unfold listed, has_status.
  cbn [report_step fst snd].
  destruct (String.eqb (status_of info) status) eqn:E.
  - apply String.eqb_eq in E. subst status.
    rewrite DefaultDict.get_update_same, length_app. reflexivity.
  - apply String.eqb_neq in E.
    rewrite DefaultDict.get_update_other by congruence. lia.
Qed.

Lemma summed_update (field : counters -> nat) (f : counters -> counters)
  (n : nat) (d : DefaultDict.t counters) (k : string) :
  field no_counts = 0 ->
  (forall c, field (f c) = field c + n) ->
  fold_right (fun entry acc => field (snd entry) + acc) 0
             (DefaultDict.update no_counts d k f)
  = fold_right (fun entry acc => field (snd entry) + acc) 0 d + n.
Proof.
  intros Hzero Hf. induction d as [|[k' c] rest IH]; cbn.
  - rewrite Hf, Hzero. lia.
  - destruct (String.eqb k k'); cbn; [rewrite Hf | rewrite IH]; lia.
Qed.

Lemma summed_step (field : counters -> nat) (n : spec_info -> nat)
  (state : report_state) (spec : string * spec_info) :
  field no_counts = 0 ->
  (forall info c, field (bump info c) = field c + n info) ->
  summed field (report_step state spec) = summed field state + n (snd spec).
Proof.
  intros Hzero Hbump. destruct state as [bs bc], spec as [name info].
  unfold summed. cbn [report_step fst snd].
  now apply summed_update.
Qed.

Lemma fold_measure (measure : report_state -> nat)
  (weight : spec_info -> nat) (specs : list (string * spec_info))
  (state : report_state) :
  (forall st spec, measure (report_step st spec)
                   = measure st + weight (snd spec)) ->
  measure (fold_left report_step specs state)
  = measure state
    + fold_right (fun spec acc => weight (snd spec) + acc) 0 specs.
Proof.
  intros Hstep. revert state.
  induction specs as [|spec rest IH]; intros state; cbn; [lia|].
  rewrite IH, Hstep. lia.
Qed.

Definition in_bucket_implemented (info : spec_info) : nat :=
  if found_impl info then 1 else 0.
Definition in_bucket_tbd (info : spec_info) : nat :=
  if found_impl info then 0 else if is_tbd info then 1 else 0.
Definition in_bucket_not_implemented (info : spec_info) : nat :=
  if found_impl info then 0 else if is_tbd info then 0 else 1.

Lemma status_total_weight (specs : list (string * spec_info)) (status : string) :
  status_total specs status
  = fold_right
      (fun spec acc => (if has_status status (snd spec) then 1 else 0) + acc)
      0 specs.
Proof.
  unfold status_total, by_status, analyse.
  change (length (DefaultDict.get [] (fst ?st) status)) with (listed status st).
  rewrite (fold_measure (listed status)
             (fun info => if has_status status info then 1 else 0)).
  - reflexivity.
  - intros st spec. apply listed_step.
Qed.

Lemma category_total_weight (field : counters -> nat) (n : spec_info -> nat)
  (specs : list (string * spec_info)) :
  field no_counts = 0 ->
  (forall info c, field (bump info c) = field c + n info) ->
  category_total field specs
  = fold_right (fun spec acc => n (snd spec) + acc) 0 specs.
Proof.
  intros Hzero Hbump. unfold category_total, by_category, analyse.
  change (fold_right (fun entry acc => field (snd entry) + acc) 0 (snd ?st))
    with (summed field st).
  rewrite (fold_measure (summed field) n).
  - reflexivity.
  - intros st spec. now apply summed_step.
Qed.

Lemma bump_implemented info c :
  IMPLEMENTED (bump info c) = IMPLEMENTED c + in_bucket_implemented info.
Proof.
  unfold bump, in_bucket_implemented.
  destruct (found_impl info), (is_tbd info); cbn; lia.
Qed.

Lemma bump_tbd info c : TBD (bump info c) = TBD c + in_bucket_tbd info.
Proof.
  unfold bump, in_bucket_tbd.
  destruct (found_impl info), (is_tbd info); cbn; lia.
Qed.

Lemma bump_not_implemented info c :
  NOT_IMPLEMENTED (bump info c)
  = NOT_IMPLEMENTED c + in_bucket_not_implemented info.
Proof.
  unfold bump, in_bucket_not_implemented.
  destruct (found_impl info), (is_tbd info); cbn; lia.
Qed.

End ReportFacts.

(** The specs that are both marked TBD and found implemented. *)
Definition tbd_and_implemented
  (specs : list (string * FullSpecAnalysis.spec_info)) : nat :=
  ReportFacts.count_if
    (fun info => (FullSpecAnalysis.is_tbd info
                  && FullSpecAnalysis.found_impl info)%bool)
    specs.

(** X15: the report counts every spec once in each of its two
    breakdowns: the three status lists together hold as many names as
    there are specs, and so do the three counters summed over all
    categories. *)
Theorem report_counts_every_spec
  (specs : list (string * FullSpecAnalysis.spec_info)) :
  FullSpecAnalysis.status_total specs "IMPLEMENTED"
  + FullSpecAnalysis.status_total specs "NOT_IMPLEMENTED"
  + FullSpecAnalysis.status_total specs "TBD"
  = length specs /\
  FullSpecAnalysis.category_total FullSpecAnalysis.IMPLEMENTED specs
  + FullSpecAnalysis.category_total FullSpecAnalysis.NOT_IMPLEMENTED specs
  + FullSpecAnalysis.category_total FullSpecAnalysis.TBD specs
  = length specs.
Proof.
  rewrite !ReportFacts.status_total_weight.
  rewrite (ReportFacts.category_total_weight _ _ specs eq_refl
             ReportFacts.bump_implemented).
  rewrite (ReportFacts.category_total_weight _ _ specs eq_refl
             ReportFacts.bump_not_implemented).
  rewrite (ReportFacts.category_total_weight _ _ specs eq_refl
             ReportFacts.bump_tbd).
  induction specs as [|[name info] rest [IHs IHc]]; [split; reflexivity|].
  cbn [fold_right length snd].
  unfold ReportFacts.has_status, FullSpecAnalysis.status_of,
    ReportFacts.in_bucket_implemented, ReportFacts.in_bucket_tbd,
    ReportFacts.in_bucket_not_implemented in *.
  destruct (FullSpecAnalysis.is_tbd info), (FullSpecAnalysis.found_impl info);
    cbn; split; lia.
Qed.

(** X16: the two breakdowns rank the flags differently.  A spec that is
    both marked TBD and found implemented is listed under TBD but counted
    as Implemented in its category, so the Implemented counters of the
    categories add up to the IMPLEMENTED total plus the number of such
    specs, and the TBD counters to the TBD total minus that number; the
    Not-Implemented figures agree. *)
Theorem report_breakdowns_differ_on_tbd_implemented
  (specs : list (string * FullSpecAnalysis.spec_info)) :
  FullSpecAnalysis.category_total FullSpecAnalysis.IMPLEMENTED specs
  = FullSpecAnalysis.status_total specs "IMPLEMENTED"
    + tbd_and_implemented specs /\
  FullSpecAnalysis.category_total FullSpecAnalysis.TBD specs
  + tbd_and_implemented specs
  = FullSpecAnalysis.status_total specs "TBD" /\
  FullSpecAnalysis.category_total FullSpecAnalysis.NOT_IMPLEMENTED specs
  = FullSpecAnalysis.status_total specs "NOT_IMPLEMENTED".
Proof.
  rewrite !ReportFacts.status_total_weight.
  rewrite (ReportFacts.category_total_weight _ _ specs eq_refl
             ReportFacts.bump_implemented).
  rewrite (ReportFacts.category_total_weight _ _ specs eq_refl
             ReportFacts.bump_not_implemented).
  rewrite (ReportFacts.category_total_weight _ _ specs eq_refl
             ReportFacts.bump_tbd).
  unfold tbd_and_implemented, ReportFacts.count_if.
  induction specs as [|[name info] rest (IHi & IHt & IHn)];
    [repeat split; reflexivity|].
  cbn [fold_right filter snd].
  unfold ReportFacts.has_status, FullSpecAnalysis.status_of,
    ReportFacts.in_bucket_implemented, ReportFacts.in_bucket_tbd,
    ReportFacts.in_bucket_not_implemented in *.
  destruct (FullSpecAnalysis.is_tbd info), (FullSpecAnalysis.found_impl info);
    cbn; repeat split; lia.
Qed.

(** * The terminology fixer *)

(** ** fix_terminology.py

    [re.sub(pattern, repl, string)] first parses the replacement template
    against the compiled pattern and raises [re.error] when the template
    refers to a group the pattern does not have; only then does it search
    the string.  The search and substitution themselves are left to a
    parameter [engine]; the group count of a pattern and the group
    references of a template are computed as the [re] module does for the
    syntax the rules of the script use: plain groups, [(?...)]
    constructs, escapes, and the references [\1]..[\99] and [\g<n>]. *)

Module FixTerminology.

Definition FORMAL_CONTEXTS : list (string * string) :=
  [ ("\bIMech\b",
     "IBattleMech")
  ; ("(\bmech\s+tonnage\b)",
     "BattleMech tonnage")
  ; ("(\bmech\s+mass\b)",
     "BattleMech mass")
  ; ("(\bmech\s+weight\b)",
     "BattleMech weight")
  ; ("(\bmech\s+configuration\b)",
     "BattleMech configuration")
  ; ("(\bmech\s+construction\b)",
     "BattleMech construction")
  ; ("(####\s+Scenario:\s+)(?:Light|Medium|Heavy|Assault)\s+mech\s+",
     "\1\g<2> BattleMech ")
  ; ("(\*\*\w+\*\*:\s+)Mech\s+",
     "\1BattleMech ")
  ; ("(SHALL\s+\w+\s+)mechs(\s+)",
     "\1BattleMechs\2")
  ; ("(MUST\s+\w+\s+)mechs(\s+)",
     "\1BattleMechs\2")
  ; ("\bExample\s+Mechs:",
     "Example BattleMechs:")
  ; ("(\bmech\s+database\b)",
     "BattleMech database")
  ; ("(\bMech\s+Database\b)",
     "BattleMech Database")
  ; ("(validating|validate)\s+the\s+mech\b",
     "\1 the BattleMech")
  ; ("(\bGIVEN\s+)a\s+mech\s+",
     "\1a BattleMech ")
  ; ("(\bWHEN\s+.*)\s+mech\s+",
     "\1 BattleMech ")
  ; ("(\bTHEN\s+.*)\s+mech\s+",
     "\1 BattleMech ")
  ].

Definition CAPITALIZATION_FIXES : list (string * string) :=
  [ ("\bBattlemech\b",
     "BattleMech")
  ; ("\bBattle\s+Mech\b",
     "BattleMech")
  ; ("\bbattle\s+mech\b",
     "BattleMech")
  ].

Inductive re_error : Type :=
| InvalidGroupReference (index : nat).

Definition is_backslash (c : ascii) : bool := Ascii.eqb c (ascii_of_nat 92).

Definition digit_value (c : ascii) : nat := nat_of_ascii c - 48.

(** The number of capturing groups of a pattern: every unescaped opening
    parenthesis that does not start a [(?...)] construct, or that starts
    a named group [(?P<...>]. *)
Fixpoint count_groups (escaped : bool) (pattern : string) : nat :=
  match pattern with
  | EmptyString => 0
  | String c rest =>
      if escaped then count_groups false rest
      else if is_backslash c then count_groups true rest
      else if Ascii.eqb c "(" then
        (if (startswith "?" rest && negb (startswith "?P<" rest))%bool
         then 0 else 1) + count_groups false rest
      else count_groups false rest
  end.

Definition groups (pattern : string) : nat := count_groups false pattern.

(** Where the scan of a template stands: in plain text, just after a
    backslash, after a backslash and one digit, after [\g], or inside
    [\g<...>]. *)
Inductive template_state : Type :=
| Plain
| Escape
| OneDigit (index : nat)
| GroupOpen
| GroupIndex (index : nat).

(** The group references of a template, in the order they are met. *)
Fixpoint references (state : template_state) (template : string) : list nat :=
  match template with
  | EmptyString =>
      match state with OneDigit index => [index] | _ => [] end
  | String c rest =>
      match state with
      | Plain =>
          if is_backslash c then references Escape rest
          else references Plain rest
      | Escape =>
          if Ascii.eqb c "g" then references GroupOpen rest
          else if between 49 57 c then references (OneDigit (digit_value c)) rest
          else references Plain rest
      | OneDigit index =>
          if isdigit c
          then (index * 10 + digit_value c :: references Plain rest)%list
          else (index :: (if is_backslash c then references Escape rest
                          else references Plain rest))%list
      | GroupOpen =>
          if Ascii.eqb c "<" then references (GroupIndex 0) rest
          else references Plain rest
      | GroupIndex index =>
          if Ascii.eqb c ">" then (index :: references Plain rest)%list
          else if isdigit c
               then references (GroupIndex (index * 10 + digit_value c)) rest
               else references Plain rest
      end
  end.

(** The first reference of the template to a group the pattern lacks. *)
Definition invalid_reference (pattern template : string) : option nat :=
  find (fun index => Nat.ltb (groups pattern) index)
       (references Plain template).

Section WithEngine.

(** [engine ignore_case pattern repl s]: the string [re.sub] returns for
    a well-formed call. *)
Variable engine : bool -> string -> string -> string -> string.

Definition re_sub (ignore_case : bool) (pattern repl s : string)
  : re_error + string :=
  match invalid_reference pattern repl with
  | Some index => inl (InvalidGroupReference index)
  | None => inr (engine ignore_case pattern repl s)
  end.

(** The loop [for pattern, replacement in rules: modified = re.sub(...)];
    the record of changes it keeps for printing is left out. *)
Fixpoint apply_rules (ignore_case : bool) (rules : list (string * string))
  (modified : string) : re_error + string :=
  match rules with
  | [] => inr modified
  | (pattern, replacement) :: rest =>
      match re_sub ignore_case pattern replacement modified with
      | inl e => inl e
      | inr modified' => apply_rules ignore_case rest modified'
      end
  end.

Definition fix_formal_contexts (content : string) : re_error + string :=
  apply_rules true FORMAL_CONTEXTS content.

Definition fix_capitalizations (content : string) : re_error + string :=
  apply_rules false CAPITALIZATION_FIXES content.

(** What [process_file] writes. *)
Inductive write : Type :=
| Backup (content : string)
| Update (content : string).

(** [process_file] once the file is read: its return value and the files
    it writes.  An exception of the fixes is caught, reported, and gives
    [False]. *)
Definition process_content (dry_run : bool) (original_content : string)
  : bool * list write :=
  match fix_capitalizations original_content with
  | inl _ => (false, [])
  | inr capitalized =>
      match fix_formal_contexts capitalized with
      | inl _ => (false, [])
      | inr modified_content =>
          if negb (String.eqb modified_content original_content)
          then (true,
                if dry_run then []
                else [Backup original_content; Update modified_content])
          else (false, [])
      end
  end.

End WithEngine.

End FixTerminology.

(** X17: the seventh rule of [FORMAL_CONTEXTS] refers to group 2 of a
    pattern that has one group ([(?:...)] does not capture), and it is the
    only rule with such a reference; [re.sub] rejects its template before
    it looks at the text.  So [fix_formal_contexts] raises on every
    content, whatever the text holds, while [fix_capitalizations] never
    raises; and [process_file], which catches the exception, returns
    [False] and writes nothing for every file, dry run or not. *)
Theorem fix_formal_contexts_always_raises
  (engine : bool -> string -> string -> string -> string) :
  filter (fun rule => match FixTerminology.invalid_reference
                              (fst rule) (snd rule) with
                      | Some _ => true
                      | None => false
                      end)
         FixTerminology.FORMAL_CONTEXTS
  = [("(####\s+Scenario:\s+)(?:Light|Medium|Heavy|Assault)\s+mech\s+",
      "\1\g<2> BattleMech ")] /\
  (forall content,
      FixTerminology.fix_formal_contexts engine content
      = inl (FixTerminology.InvalidGroupReference 2)) /\
  (forall content,
      exists fixed,
        FixTerminology.fix_capitalizations engine content = inr fixed) /\
  (forall dry_run content,
      FixTerminology.process_content engine dry_run content = (false, [])).
Proof.
  assert (Hformal : forall content,
             FixTerminology.fix_formal_contexts engine content
             = inl (FixTerminology.InvalidGroupReference 2)).
  { intros content. reflexivity. }
  assert (Hcap : forall content, exists fixed,
             FixTerminology.fix_capitalizations engine content = inr fixed).
  { intros content. eexists. reflexivity. }
  split; [vm_compute; reflexivity|].
  split; [exact Hformal|]. split; [exact Hcap|].
  intros dry_run content. unfold FixTerminology.process_content.
  destruct (Hcap content) as [fixed ->]. now rewrite Hformal.
Qed.

Example groups_of_the_rules :
  map (fun rule => FixTerminology.groups (fst rule))
      FixTerminology.FORMAL_CONTEXTS
  = [0; 1; 1; 1; 1; 1; 1; 1; 2; 2; 0; 1; 1; 1; 1; 1; 1] /\
  map (fun rule => FixTerminology.references FixTerminology.Plain (snd rule))
      FixTerminology.FORMAL_CONTEXTS
  = [[]; []; []; []; []; []; [1; 2]; [1]; [1; 2]; [1; 2]; []; []; []; [1];
     [1]; [1]; [1]].
Proof. split; vm_compute; reflexivity. Qed.

(** * Letter case of inputs that are no alias *)

Module CaseFacts.

Lemma upper_lower_char (c : ascii) : upper_char (lower_char c) = upper_char c.
Proof. destruct c as [[] [] [] [] [] [] [] []]; reflexivity. Qed.

Lemma lower_lower_char (c : ascii) : lower_char (lower_char c) = lower_char c.
Proof. destruct c as [[] [] [] [] [] [] [] []]; reflexivity. Qed.

Lemma iscased_lower_char (c : ascii) : iscased (lower_char c) = iscased c.
Proof. destruct c as [[] [] [] [] [] [] [] []]; reflexivity. Qed.

Lemma isdigit_lower_char (c : ascii) : isdigit (lower_char c) = isdigit c.
Proof. destruct c as [[] [] [] [] [] [] [] []]; reflexivity. Qed.

Lemma digit_lower_char (c : ascii) : isdigit c = true -> lower_char c = c.
Proof.
  destruct c as [[] [] [] [] [] [] [] []]; intros H;
    first [reflexivity | discriminate H].
Qed.

Lemma uncased_lower_char (c : ascii) : iscased c = false -> lower_char c = c.
Proof.
  destruct c as [[] [] [] [] [] [] [] []]; intros H;
    first [reflexivity | discriminate H].
Qed.

Lemma upper_lower (s : string) : upper (lower s) = upper s.
Proof.
  induction s as [|c r IH]; [reflexivity|]. cbn.
  fold (lower r) (upper (lower r)) (upper r).
  now rewrite upper_lower_char, IH.
Qed.

Lemma title_from_lower (cased : bool) (s : string) :
  title_from cased (lower s) = title_from cased s.
Proof.
  revert cased. induction s as [|c r IH]; intros cased; [reflexivity|].
  cbn. fold (lower r).
  rewrite iscased_lower_char, lower_lower_char, upper_lower_char, !IH.
  destruct (iscased c) eqn:E; [reflexivity|].
  now rewrite (uncased_lower_char c E).
Qed.

Lemma first_digit_level_lower (s : string) :
  first_digit_level (lower s) = first_digit_level s.
Proof.
  induction s as [|c r IH]; [reflexivity|]. cbn [lower map_chars].
  fold (lower r). cbn [first_digit_level].
  rewrite isdigit_lower_char. destruct (isdigit c) eqn:E; [|exact IH].
  now rewrite (digit_lower_char c E).
Qed.

Lemma same_upper (s1 s2 : string) : lower s1 = lower s2 -> upper s1 = upper s2.
Proof.
  intros H. rewrite <- (upper_lower s1), <- (upper_lower s2). now rewrite H.
Qed.

Lemma same_title (s1 s2 : string) : lower s1 = lower s2 -> title s1 = title s2.
Proof.
  intros H. unfold title.
  rewrite <- (title_from_lower false s1), <- (title_from_lower false s2).
  now rewrite H.
Qed.

Lemma same_first_digit (s1 s2 : string) :
  lower s1 = lower s2 -> first_digit_level s1 = first_digit_level s2.
Proof.
  intros H.
  rewrite <- (first_digit_level_lower s1), <- (first_digit_level_lower s2).
  now rewrite H.
Qed.

End CaseFacts.

(** Two inputs that are no alias of [table] and differ only in letter
    case get the same result from [f]. *)
Definition case_blind_off_table (f : mapper) (table : PyDict.dict) : Prop :=
  forall value1 value2,
    PyDict.contains table (strip value1) = false ->
    PyDict.contains table (strip value2) = false ->
    lower (strip value1) = lower (strip value2) ->
    f value1 = f value2.

Ltac by_same_upper :=
  intros value1 value2 Hkey1 Hkey2 Hlower;
  match goal with
  | |- ?f _ = ?f _ => unfold f
  end;
  cbv zeta; rewrite Hkey1, Hkey2, (CaseFacts.same_upper _ _ Hlower);
  reflexivity.

(** X18: the exact alias lookup is the only place where letter case
    counts.  For the eight mapping functions that have a fallback, two
    inputs whose trimmed forms are no aliases and are equal up to letter
    case are mapped to the same token. *)
Theorem fallbacks_ignore_letter_case :
  case_blind_off_table map_tech_base TECH_BASE_MAP /\
  case_blind_off_table map_rules_level RULES_LEVEL_MAP /\
  case_blind_off_table map_engine_type ENGINE_TYPE_MAP /\
  case_blind_off_table map_gyro_type GYRO_TYPE_MAP /\
  case_blind_off_table map_structure_type STRUCTURE_TYPE_MAP /\
  case_blind_off_table map_armor_type ARMOR_TYPE_MAP /\
  case_blind_off_table map_heat_sink_type HEAT_SINK_TYPE_MAP /\
  case_blind_off_table map_mech_location MECH_LOCATION_MAP.
Proof.
  split; [|split; [|repeat split; try by_same_upper]].
  - intros value1 value2 Hkey1 Hkey2 Hlower. unfold map_tech_base. cbv zeta.
    rewrite (DictFacts.get_miss _ _ _ Hkey1), (DictFacts.get_miss _ _ _ Hkey2).
    now rewrite (CaseFacts.same_title _ _ Hlower).
  - intros value1 value2 Hkey1 Hkey2 Hlower. unfold map_rules_level.
    cbv zeta. rewrite Hkey1, Hkey2.
    now rewrite (CaseFacts.same_first_digit _ _ Hlower).
  - intros value1 value2 Hkey1 Hkey2 Hlower. unfold map_mech_location.
    cbv zeta. rewrite Hkey1, Hkey2, Hlower.
    now rewrite (CaseFacts.same_upper _ _ Hlower).
Qed.

Lemma fallbacks_ignore_letter_case_witness :
  map_armor_type "heavy ferro plating" = map_armor_type "Heavy FERRO Plating" /\
  map_tech_base "inner sphere" = map_tech_base "INNER SPHERE".
Proof.
  destruct fallbacks_ignore_letter_case
    as (Htech & _ & _ & _ & _ & Harmor & _).
  split; [apply Harmor | apply Htech]; reflexivity.
Defined.
